(** * Pomodoro timer widget: state machine, persistence and backend sync

    Shallow embedding of [app/static/js/pomodoro-widget.js].

    Conventions of the embedding.
    - JavaScript numbers that the widget uses are integers (minutes,
      counters, epoch milliseconds); they are modelled as [Z].
    - [null] and [undefined] are both [None]; a JavaScript truthiness test
      on a number is "present and non-zero", on a string "present and
      non-empty".  In arithmetic [null] converts to [0].
    - The module-level variables [settings], [classes], [state] and
      [timerInterval], together with [localStorage] and the observable
      effects (renders, label changes, requests, sounds), form a [World].
    - [Date.now()] is an argument of every handler; one synchronous run of
      a handler reads one instant.
    - An [async] function runs synchronously up to its first [await] and
      then yields; the code after the [await] is a continuation ([Cont])
      that the event loop resumes when the request settles.  In
      [fetchSettings] and [toggleTimer] the two consecutive awaits
      ([fetch] and [response.json()]) are merged, because the code between
      them neither reads nor writes the widget's variables. *)

From Stdlib Require Import ZArith List Bool String Lia.
From Stdlib Require Import Ascii DecimalString.
Import ListNotations.
Open Scope Z_scope.

Module Pomodoro.

(** ** Data model *)

(** [state.type]: 'work', 'short_break', 'long_break'. *)
Inductive SessionType := T_work | T_short_break | T_long_break.

(** [data-type] of the duration buttons: 'work', 'short', 'long'. *)
Inductive DurationKey := D_work | D_short | D_long.

Definition SessionId := string.

Record Settings := mkSettings {
  work : Z;
  short_break : Z;
  long_break : Z;
  sessions_until_long : Z
}.

Record State := mkState {
  isRunning : bool;
  isPaused : bool;
  sessionId : option SessionId;
  type : SessionType;
  endTime : option Z;
  duration : Z;
  classId : option string;
  completedSessions : Z;
  pausedRemaining : option Z
}.

(** A class offered in the drop-down: [{id, name}]. *)
Record ClassEntry := mkClass { cls_id : string; cls_name : string }.

(** Requests sent to the backend. *)
Inductive Request :=
| ReqActive
| ReqStart (t : SessionType) (d : Z) (class_id : option string)
| ReqComplete (id : SessionId)
| ReqCancel (id : SessionId)
| ReqSettings (s : Settings).

(** Observable effects, in the order in which they happen. *)
Inductive Effect :=
| Render (mins secs : Z) (showPause : bool)
| Label (t : SessionType)
| Fetch (r : Request)
| Sound.

Record World := mkWorld {
  settings : Settings;
  classes : list ClassEntry;
  state : State;
  timerInterval : bool;
  storage : option State;
  log : list Effect
}.

(** The code that is still to run after an [await]. *)
Inductive Cont :=
| K_init
| K_toggleTimer
| K_completeSession
| K_resetTimer
| K_skipSession
| K_saveSettings.

(** Payload of [GET /pomodoro/active] when [response.ok] and
    [data.success] hold. *)
Record ActiveData := mkActive {
  pomodoro_work_duration : option Z;
  pomodoro_short_break : option Z;
  pomodoro_long_break : option Z;
  pomodoro_sessions_until_long : option Z;
  data_classes : list ClassEntry;
  today_sessions : option Z
}.

(** How a request settles.  [R_fail] is a rejected fetch, a body that does
    not parse, or (for the bootstrap) [!response.ok] or [!data.success]; a
    continuation that is handed an answer of another request's kind treats
    it as [R_fail]. *)
Inductive Response :=
| R_fail
| R_active (d : ActiveData)
| R_start (success : bool) (session_id : option SessionId)
| R_ack.

(** ** JavaScript conversions *)

Definition truthy (o : option Z) : bool :=
  match o with Some v => negb (v =? 0) | None => false end.

Definition truthy_str (o : option string) : bool :=
  match o with Some s => negb (String.eqb s EmptyString) | None => false end.

Definition num (o : option Z) : Z :=
  match o with Some v => v | None => 0 end.

(** [x || d] on an optional number. *)
Definition or_default (o : option Z) (d : Z) : Z :=
  if truthy o then num o else d.

(** [Math.ceil(a / b)] for [b > 0]. *)
Definition ceil_div (a b : Z) : Z := - ((- a) / b).

(** ** Field updates *)

Definition set_isRunning (b : bool) (s : State) : State :=
  mkState b (isPaused s) (sessionId s) (type s) (endTime s) (duration s)
          (classId s) (completedSessions s) (pausedRemaining s).
Definition set_isPaused (b : bool) (s : State) : State :=
  mkState (isRunning s) b (sessionId s) (type s) (endTime s) (duration s)
          (classId s) (completedSessions s) (pausedRemaining s).
Definition set_sessionId (i : option SessionId) (s : State) : State :=
  mkState (isRunning s) (isPaused s) i (type s) (endTime s) (duration s)
          (classId s) (completedSessions s) (pausedRemaining s).
Definition set_type (t : SessionType) (s : State) : State :=
  mkState (isRunning s) (isPaused s) (sessionId s) t (endTime s) (duration s)
          (classId s) (completedSessions s) (pausedRemaining s).
Definition set_endTime (e : option Z) (s : State) : State :=
  mkState (isRunning s) (isPaused s) (sessionId s) (type s) e (duration s)
          (classId s) (completedSessions s) (pausedRemaining s).
Definition set_duration (d : Z) (s : State) : State :=
  mkState (isRunning s) (isPaused s) (sessionId s) (type s) (endTime s) d
          (classId s) (completedSessions s) (pausedRemaining s).
Definition set_classId (c : option string) (s : State) : State :=
  mkState (isRunning s) (isPaused s) (sessionId s) (type s) (endTime s)
          (duration s) c (completedSessions s) (pausedRemaining s).
Definition set_completedSessions (n : Z) (s : State) : State :=
  mkState (isRunning s) (isPaused s) (sessionId s) (type s) (endTime s)
          (duration s) (classId s) n (pausedRemaining s).
Definition set_pausedRemaining (r : option Z) (s : State) : State :=
  mkState (isRunning s) (isPaused s) (sessionId s) (type s) (endTime s)
          (duration s) (classId s) (completedSessions s) r.

Definition upd_state (f : State -> State) (w : World) : World :=
  mkWorld (settings w) (classes w) (f (state w)) (timerInterval w)
          (storage w) (log w).
Definition upd_settings (f : Settings -> Settings) (w : World) : World :=
  mkWorld (f (settings w)) (classes w) (state w) (timerInterval w)
          (storage w) (log w).
Definition set_classes (c : list ClassEntry) (w : World) : World :=
  mkWorld (settings w) c (state w) (timerInterval w) (storage w) (log w).
Definition set_timerInterval (b : bool) (w : World) : World :=
  mkWorld (settings w) (classes w) (state w) b (storage w) (log w).
Definition emit (e : Effect) (w : World) : World :=
  mkWorld (settings w) (classes w) (state w) (timerInterval w) (storage w)
          (log w ++ [e]).

(** ** Module initialisation *)

Definition default_settings : Settings := mkSettings 25 5 15 4.

Definition initial_state : State :=
  mkState false false None T_work None 25 None 0 None.

Definition initial_world (stor : option State) : World :=
  mkWorld default_settings [] initial_state false stor [].

(** ** Rendering and persistence *)

(** The remaining time, in milliseconds, that [updateDisplay] shows. *)
Definition remaining_ms (now : Z) (s : State) : Z :=
  if isRunning s && truthy (endTime s) then Z.max 0 (num (endTime s) - now)
  else if isPaused s && truthy (pausedRemaining s) then num (pausedRemaining s)
  else duration s * 60 * 1000.

Definition updateDisplay (now : Z) (w : World) : World :=
  let remaining := remaining_ms now (state w) in
  let totalSeconds := ceil_div remaining 1000 in
  let mins := totalSeconds / 60 in
  let secs := Z.rem totalSeconds 60 in
  emit (Render mins secs (isRunning (state w))) w.

Definition saveState (w : World) : World :=
  mkWorld (settings w) (classes w) (state w) (timerInterval w)
          (Some (state w)) (log w).

Definition clearInterval (w : World) : World := set_timerInterval false w.

Definition startInterval (w : World) : World :=
  set_timerInterval true (clearInterval w).

(** ** Operations *)

Definition duration_of (t : SessionType) (st : Settings) : Z :=
  match t with
  | T_work => work st
  | T_short_break => short_break st
  | T_long_break => long_break st
  end.

Definition setSessionType (now : Z) (t : SessionType) (w : World) : World :=
  let w := upd_state (set_type t) w in
  let w := upd_state (set_duration (duration_of t (settings w))) w in
  let w := upd_state (set_endTime None) w in
  let w := upd_state (set_isRunning false) w in
  let w := upd_state (set_isPaused false) w in
  let w := emit (Label t) w in
  let w := saveState w in
  updateDisplay now w.

(** The part of [toggleTimer] after its [try]/[catch]. *)
Definition toggleTimer_rest (now : Z) (w : World) : World :=
  updateDisplay now (saveState (startInterval w)).

Definition toggleTimer (now : Z) (w : World) : World * option Cont :=
  if isRunning (state w) then
    let w := upd_state (set_isPaused true) w in
    let w := upd_state (set_isRunning false) w in
    let w := clearInterval w in
    let remaining := Z.max 0 (num (endTime (state w)) - now) in
    let w := upd_state (set_pausedRemaining (Some remaining)) w in
    let w := upd_state (set_endTime None) w in
    (updateDisplay now (saveState w), None)
  else
    let w :=
      if isPaused (state w) && truthy (pausedRemaining (state w)) then
        let w := upd_state
                   (set_endTime (Some (now + num (pausedRemaining (state w))))) w in
        upd_state (set_pausedRemaining None) w
      else
        upd_state (set_endTime (Some (now + duration (state w) * 60 * 1000))) w in
    let w := upd_state (set_isRunning true) w in
    let w := upd_state (set_isPaused false) w in
    if negb (truthy_str (sessionId (state w))) then
      (emit (Fetch (ReqStart (type (state w)) (duration (state w))
                             (classId (state w)))) w,
       Some K_toggleTimer)
    else (toggleTimer_rest now w, None).

Definition resume_toggleTimer (now : Z) (r : Response) (w : World) : World :=
  let w :=
    match r with
    | R_start true id => upd_state (set_sessionId id) w
    | _ => w
    end in
  toggleTimer_rest now w.

(** The part of [completeSession] after the backend call: the rollover. *)
Definition completeSession_rest (now : Z) (w : World) : World :=
  let w :=
    match type (state w) with
    | T_work =>
        let w := upd_state
                   (set_completedSessions (completedSessions (state w) + 1)) w in
        if completedSessions (state w) >=? sessions_until_long (settings w)
        then setSessionType now T_long_break
               (upd_state (set_completedSessions 0) w)
        else setSessionType now T_short_break w
    | _ => setSessionType now T_work w
    end in
  let w := upd_state (set_sessionId None) w in
  updateDisplay now (saveState w).

(** [completeSession] up to its [await]; the desktop notification, which
    depends on the browser's permission and touches no variable, is left
    out. *)
Definition completeSession (now : Z) (w : World) : World * option Cont :=
  let w := upd_state (set_isRunning false) w in
  let w := upd_state (set_endTime None) w in
  let w := emit Sound w in
  match sessionId (state w) with
  | Some id =>
      if truthy_str (Some id)
      then (emit (Fetch (ReqComplete id)) w, Some K_completeSession)
      else (completeSession_rest now w, None)
  | None => (completeSession_rest now w, None)
  end.

(** The callback installed by [startInterval]. *)
Definition tick (now : Z) (w : World) : World * option Cont :=
  let remaining := num (endTime (state w)) - now in
  if remaining <=? 0 then
    let '(w, k) := completeSession now (clearInterval w) in
    (updateDisplay now w, k)
  else (updateDisplay now w, None).

Definition resetTimer_rest (now : Z) (w : World) : World :=
  let w := clearInterval w in
  let w := upd_state (set_isRunning false) w in
  let w := upd_state (set_isPaused false) w in
  let w := upd_state (set_endTime None) w in
  let w := upd_state (set_sessionId None) w in
  let w := upd_state (set_pausedRemaining None) w in
  updateDisplay now (saveState w).

Definition resetTimer (now : Z) (w : World) : World * option Cont :=
  match sessionId (state w) with
  | Some id =>
      if truthy_str (Some id)
      then (emit (Fetch (ReqCancel id)) w, Some K_resetTimer)
      else (resetTimer_rest now w, None)
  | None => (resetTimer_rest now w, None)
  end.

Definition skipSession_rest (now : Z) (w : World) : World :=
  let w := clearInterval w in
  let w := upd_state (set_isRunning false) w in
  let w := upd_state (set_endTime None) w in
  let w := upd_state (set_sessionId None) w in
  let w :=
    match type (state w) with
    | T_work =>
        if completedSessions (state w) >=? sessions_until_long (settings w) - 1
        then setSessionType now T_long_break w
        else setSessionType now T_short_break w
    | _ => setSessionType now T_work w
    end in
  saveState w.

Definition skipSession (now : Z) (w : World) : World * option Cont :=
  match sessionId (state w) with
  | Some id =>
      if truthy_str (Some id)
      then (emit (Fetch (ReqCancel id)) w, Some K_skipSession)
      else (skipSession_rest now w, None)
  | None => (skipSession_rest now w, None)
  end.

Definition clamp (lo hi v : Z) : Z := Z.max lo (Z.min hi v).

Definition max_of (k : DurationKey) : Z :=
  match k with D_work => 60 | _ => 30 end.

Definition setting_of (k : DurationKey) (st : Settings) : Z :=
  match k with
  | D_work => work st
  | D_short => short_break st
  | D_long => long_break st
  end.

Definition adjust_setting (k : DurationKey) (direction : Z) (st : Settings)
  : Settings :=
  let min := 1 in
  let max := max_of k in
  match k with
  | D_work =>
      mkSettings (clamp min max (work st + direction)) (short_break st)
                 (long_break st) (sessions_until_long st)
  | D_short =>
      mkSettings (work st) (clamp min max (short_break st + direction))
                 (long_break st) (sessions_until_long st)
  | D_long =>
      mkSettings (work st) (short_break st)
                 (clamp min max (long_break st + direction))
                 (sessions_until_long st)
  end.

Definition saveSettingsToServer (w : World) : World * option Cont :=
  (emit (Fetch (ReqSettings (settings w))) w, Some K_saveSettings).

Definition adjustDuration (now : Z) (k : DurationKey) (direction : Z)
  (w : World) : World * option Cont :=
  let w := upd_settings (adjust_setting k direction) w in
  let w := if negb (isRunning (state w))
           then setSessionType now (type (state w)) w
           else w in
  saveSettingsToServer w.

(** The [change] listener of the class drop-down. *)
Definition selectClass (v : string) (w : World) : World :=
  let c := if String.eqb v EmptyString then None else Some v in
  saveState (upd_state (set_classId c) w).

(** The click listener of a type tab. *)
Definition selectType (now : Z) (t : SessionType) (w : World) : World :=
  if negb (isRunning (state w)) then setSessionType now t w else w.

(** ** Start-up: rehydration and bootstrap *)

Definition loadState (now : Z) (w : World) : World :=
  match storage w with
  | Some parsed =>
      let w := upd_state (fun _ => parsed) w in
      let w :=
        if isRunning (state w) && truthy (endTime (state w))
           && (num (endTime (state w)) <? now)
        then
          let w := upd_state (set_isRunning false) w in
          let w := upd_state (set_endTime None) w in
          upd_state (set_sessionId None) w
        else w in
      setSessionType now (type (state w)) w
  | None => w
  end.

Definition fetchSettings (w : World) : World * option Cont :=
  (emit (Fetch ReqActive) w, Some K_init).

(** [fetchSettings] after its awaits, when the bootstrap succeeded. *)
Definition fetchSettings_success (d : ActiveData) (w : World) : World :=
  let w := upd_settings (fun _ =>
             mkSettings (or_default (pomodoro_work_duration d) 25)
                        (or_default (pomodoro_short_break d) 5)
                        (or_default (pomodoro_long_break d) 15)
                        (or_default (pomodoro_sessions_until_long d) 4)) w in
  let w := set_classes (data_classes d) w in
  let w := upd_state (set_completedSessions (or_default (today_sessions d) 0)) w in
  if negb (isRunning (state w)) && negb (truthy (endTime (state w)))
  then upd_state (set_duration (work (settings w))) w
  else w.

(** [init] after [await fetchSettings()]. *)
Definition init_rest (now : Z) (w : World) : World :=
  let w := updateDisplay now w in
  if isRunning (state w) && truthy (endTime (state w))
  then startInterval w
  else w.

Definition resume_init (now : Z) (r : Response) (w : World) : World :=
  let w := match r with
           | R_active d => fetchSettings_success d w
           | _ => w
           end in
  init_rest now w.

Definition init (now : Z) (w : World) : World * option Cont :=
  fetchSettings (loadState now w).

(** ** The event loop *)

Definition resume (k : Cont) (now : Z) (r : Response) (w : World) : World :=
  match k with
  | K_init => resume_init now r w
  | K_toggleTimer => resume_toggleTimer now r w
  | K_completeSession => completeSession_rest now w
  | K_resetTimer => resetTimer_rest now w
  | K_skipSession => skipSession_rest now w
  | K_saveSettings => w
  end.

Record System := mkSystem {
  world : World;
  pending : list Cont
}.

Inductive Event :=
| E_load
| E_selectType (t : SessionType)
| E_toggle
| E_reset
| E_skip
| E_adjust (k : DurationKey) (direction : Z)
| E_selectClass (v : string)
| E_tick
| E_settle (i : nat) (r : Response).

Fixpoint remove_nth {A} (i : nat) (l : list A) : list A :=
  match l, i with
  | [], _ => []
  | _ :: t, O => t
  | h :: t, S j => h :: remove_nth j t
  end.

Definition suspend (p : World * option Cont) (ks : list Cont) : System :=
  match snd p with
  | Some k => mkSystem (fst p) (ks ++ [k])
  | None => mkSystem (fst p) ks
  end.

(** Loading the page: fresh module variables, the stored record kept. *)
Definition boot (now : Z) (stor : option State) : System :=
  suspend (init now (initial_world stor)) [].

Definition step (now : Z) (ev : Event) (sys : System) : System :=
  let w := world sys in
  let ks := pending sys in
  match ev with
  | E_load => boot now (storage w)
  | E_selectType t => mkSystem (selectType now t w) ks
  | E_toggle => suspend (toggleTimer now w) ks
  | E_reset => suspend (resetTimer now w) ks
  | E_skip => suspend (skipSession now w) ks
  | E_adjust k d => suspend (adjustDuration now k d w) ks
  | E_selectClass v => mkSystem (selectClass v w) ks
  | E_tick => if timerInterval w then suspend (tick now w) ks else sys
  | E_settle i r =>
      match nth_error ks i with
      | Some k => mkSystem (resume k now r w) (remove_nth i ks)
      | None => sys
      end
  end.

Inductive reachable : System -> Prop :=
| reach_boot : forall now stor, reachable (boot now stor)
| reach_step : forall now ev sys,
    reachable sys -> reachable (step now ev sys).

(** A handler run with nothing interleaved at its [await]. *)
Definition run_to_end (p : World * option Cont) (now' : Z) (r : Response)
  : World :=
  match snd p with
  | Some k => resume k now' r (fst p)
  | None => fst p
  end.

(** ** Properties and example inputs *)

(** The session type that the rollover rule selects from a counter value
    that already includes the session just completed. *)
Definition next_type (t : SessionType) (counted : Z) (until_long : Z)
  : SessionType :=
  match t with
  | T_work => if counted >=? until_long then T_long_break else T_short_break
  | _ => T_work
  end.

(** A sequence of clicks on the duration buttons; the settings request
    that each click sends has an empty continuation. *)
Fixpoint adjust_many (now : Z) (calls : list (DurationKey * Z)) (w : World)
  : World :=
  match calls with
  | [] => w
  | (k, d) :: rest => adjust_many now rest (fst (adjustDuration now k d w))
  end.

Definition in_bounds (st : Settings) : Prop :=
  forall k, 1 <= setting_of k st <= max_of k.


Definition running_with_session : World :=
  mkWorld default_settings []
    (mkState true false (Some "7"%string) T_work (Some 90000) 25 None 2 None)
    true None [].


Definition work_at_59 : World :=
  mkWorld (mkSettings 59 5 15 4) [] initial_state false None [].

Definition stored_running : State :=
  mkState true false (Some "7"%string) T_work (Some 90000) 25 None 2 None.



Definition stored_two_done : State :=
  mkState false false None T_work None 25 None 2 None.

Definition server_five_today : ActiveData :=
  mkActive (Some 25) (Some 5) (Some 15) (Some 4) [] (Some 5).


Definition deadline_iff_running (s : State) : Prop :=
  isRunning s = true <-> endTime s <> None.

Definition paused_has_remainder (s : State) : Prop :=
  isPaused s = true -> pausedRemaining s <> None.

Definition remainder_iff_paused (s : State) : Prop :=
  isPaused s = true <-> pausedRemaining s <> None.

Definition timer_inv (s : State) : Prop :=
  deadline_iff_running s /\ paused_has_remainder s /\
  (isRunning s = true -> isPaused s = false).

Definition start_then_pause : System :=
  step 3000 E_toggle
    (step 2000 (E_settle 0 (R_start true (Some "7"%string)))
       (step 1000 E_toggle
          (step 500 (E_settle 0 R_fail) (boot 0 None)))).

Definition pause_then_select : System :=
  step 4000 (E_selectType T_short_break) start_then_pause.

Definition counter_in_range (w : World) : Prop :=
  0 <= completedSessions (state w) < sessions_until_long (settings w).

(** The two ways in which values from outside replace the counter or the
    rollover threshold: a page load (stored counter, default settings) and a
    successful bootstrap (server counter, server settings). *)
Definition bootstraps (ev : Event) (sys : System) : bool :=
  match ev with
  | E_load => true
  | E_settle i (R_active _) =>
      match nth_error (pending sys) i with
      | Some K_init => true
      | _ => false
      end
  | _ => false
  end.

Definition counter_frame (w w' : World) : Prop :=
  completedSessions (state w') = completedSessions (state w) /\
  sessions_until_long (settings w') = sessions_until_long (settings w).

Definition third_work_session_running : System :=
  mkSystem
    (mkWorld default_settings []
       (mkState true false None T_work (Some 90000) 25 None 3 None)
       true None [])
    [].

Definition server_ten_today : ActiveData :=
  mkActive (Some 25) (Some 5) (Some 15) (Some 4) [] (Some 10).

Definition bootstrapped_ten : System :=
  step 500 (E_settle 0 (R_active server_ten_today)) (boot 0 None).

(** ** Further example inputs *)

Definition idle_work : World :=
  mkWorld default_settings [] initial_state false None [].

Definition paused_with_session : World :=
  mkWorld default_settings []
    (mkState false true (Some "7"%string) T_work None 25 None 2 (Some 60000))
    false None [].


Definition stored_short_break : State :=
  mkState false false None T_short_break None 7 (Some "12"%string) 1 None.


(** The row of dots drawn by [updateSessionIndicators]: one dot per
    session up to the long break, [true] for the class 'completed'. *)
Definition updateSessionIndicators (w : World) : list bool :=
  map (fun i => Z.of_nat i <? completedSessions (state w))
      (seq 0 (Z.to_nat (sessions_until_long (settings w)))).

(** The settled request is a bootstrap that succeeded. *)
Definition bootstrap_succeeds (ev : Event) (sys : System) : bool :=
  match ev with
  | E_settle i (R_active _) =>
      match nth_error (pending sys) i with
      | Some K_init => true
      | _ => false
      end
  | _ => false
  end.

(** [n] times: a session runs to its completion, then the session that
    follows it does. *)
Fixpoint complete_cycles (n : nat) (now : Z) (w : World) : World :=
  match n with
  | O => w
  | S k => complete_cycles k now
             (completeSession_rest now (completeSession_rest now w))
  end.

(** ** The time label of [updateDisplay] *)

(** [n.toString()] of an integer. *)
Definition toString (z : Z) : string := NilZero.string_of_int (Z.to_int z).

(** [s.padStart(targetLength, pad)] with a one-character pad. *)
Definition padStart (targetLength : nat) (pad : ascii) (s : string) : string :=
  string_of_list_ascii (repeat pad (targetLength - String.length s)) ++ s.

(** The template [`${mins...}:${secs...}`]. *)
Definition timeStr (mins secs : Z) : string :=
  padStart 2 "0" (toString mins) ++ ":" ++ padStart 2 "0" (toString secs).

(** The text that [updateDisplay] writes into both time displays. *)
Definition display_label (now : Z) (s : State) : string :=
  let totalSeconds := ceil_div (remaining_ms now s) 1000 in
  timeStr (totalSeconds / 60) (Z.rem totalSeconds 60).

(** The character of a decimal digit. *)
Definition digit (d : Z) : ascii := ascii_of_nat (48 + Z.to_nat d).

Definition two_digits (n : Z) : string :=
  String (digit (n / 10)) (String (digit (n mod 10)) EmptyString).

Definition timeStr_check (m s : nat) : bool :=
  String.eqb (timeStr (Z.of_nat m) (Z.of_nat s))
             (two_digits (Z.of_nat m) ++ ":" ++ two_digits (Z.of_nat s)).

(** ** Desktop launcher: waiting for the backend (Electron main process) *)

Inductive WaitResult := Resolved | Rejected.

(** [waitForFlask(resolve, reject, remainingAttempts)].  [probe i] tells
    whether the request number [i] (from 0) is answered rather than failing
    with an error; [made] counts the requests made so far.  The function
    returns which of [resolve] and [reject] is called and how many requests
    were made; one second passes after each failed request. *)
Fixpoint waitForFlask_from (probe : nat -> bool) (made : nat)
  (remainingAttempts : nat) : WaitResult * nat :=
  match remainingAttempts with
  | O => (Rejected, made)
  | S k =>
      if probe made then (Resolved, S made)
      else waitForFlask_from probe (S made) k
  end.

Definition waitForFlask (probe : nat -> bool) (remainingAttempts : Z)
  : WaitResult * nat :=
  waitForFlask_from probe 0 (Z.to_nat remainingAttempts).

(** ** Celebrations: how many particles a streak fires *)

(** The [count] that [streakCelebration] passes to [confetti]. *)
Definition streakCelebration_count (streakCount : Z) : Z :=
  Z.min (50 + streakCount * 10) 200.

(** [options.count || 100] in [confetti]. *)
Definition confetti_count (options_count : option Z) : Z :=
  or_default options_count 100.

(** Number of particles pushed by the loop
    [for (let i = 0; i < count; i++)] of [confetti]. *)
Definition confetti_particles (options_count : option Z) : nat :=
  Z.to_nat (confetti_count options_count).

Definition streak_particles (streakCount : Z) : nat :=
  confetti_particles (Some (streakCelebration_count streakCount)).

(** The interval callback fired at each of the given instants, in order;
    none of these runs is followed beyond its first [await]. *)
Definition ticks (times : list Z) (w : World) : World :=
  fold_left (fun w t => fst (tick t w)) times w.

(** ** Proof support *)

#[local] Arguments ceil_div : simpl never.
#[local] Arguments remaining_ms : simpl never.
#[local] Arguments Z.mul : simpl never.
#[local] Arguments Z.add : simpl never.
#[local] Arguments Z.sub : simpl never.
#[local] Arguments Z.div : simpl never.
#[local] Arguments Z.rem : simpl never.
#[local] Arguments Z.max : simpl never.
#[local] Arguments Z.min : simpl never.
#[local] Arguments Z.geb : simpl never.
#[local] Arguments Z.leb : simpl never.
#[local] Arguments Z.ltb : simpl never.
#[local] Arguments Z.eqb : simpl never.

Ltac break_world w :=
  let st := fresh "st" in
  let s := fresh "s" in
  destruct w as [st ? s ? ? ?]; destruct s; destruct st; simpl in *.

Ltac inv_solve :=
  unfold timer_inv, deadline_iff_running, paused_has_remainder in *;
  cbn in *; intuition (congruence || discriminate).

(** ** Pausing *)

(** C10. [toggleTimer] called while running snapshots
    [pausedRemaining = max(0, endTime - now)], clears [endTime], becomes
    paused, awaits nothing and sends no request, and keeps [sessionId],
    [type], [duration], [classId] and [completedSessions]. *)
Theorem toggleTimer_pause_is_local :
  forall now w e,
    isRunning (state w) = true ->
    endTime (state w) = Some e ->
    let w' := fst (toggleTimer now w) in
    snd (toggleTimer now w) = None /\
    pausedRemaining (state w') = Some (Z.max 0 (e - now)) /\
    endTime (state w') = None /\
    isPaused (state w') = true /\
    isRunning (state w') = false /\
    (forall r, In (Fetch r) (log w') -> In (Fetch r) (log w)) /\
    sessionId (state w') = sessionId (state w) /\
    type (state w') = type (state w) /\
    duration (state w') = duration (state w) /\
    classId (state w') = classId (state w) /\
    completedSessions (state w') = completedSessions (state w).
Proof.
  intros now w e Hrun Hend.
  break_world w. subst.
  unfold toggleTimer; simpl.
  repeat split; try reflexivity.
  intros r Hin. apply in_app_or in Hin. destruct Hin as [H | H]; [exact H|].
  simpl in H. destruct H as [H | []]. discriminate H.
Qed.

Lemma toggleTimer_pause_is_local_witness :
  pausedRemaining (state (fst (toggleTimer 30000 running_with_session)))
  = Some 60000.
Proof.
  destruct (toggleTimer_pause_is_local 30000 running_with_session 90000
              eq_refl eq_refl) as [_ [H _]].
  exact H.
Defined.

(** ** Rollover on completion, type advance on skip *)

Lemma completeSession_rest_type now w :
  type (state (completeSession_rest now w)) =
  next_type (type (state w)) (completedSessions (state w) + 1)
            (sessions_until_long (settings w)).
Proof.
  break_world w. unfold completeSession_rest, next_type; simpl.
  destruct type0; simpl; try reflexivity.
  destruct (_ >=? _); reflexivity.
Qed.

Lemma completeSession_rest_counter now w :
  completedSessions (state (completeSession_rest now w)) =
  match type (state w) with
  | T_work =>
      if completedSessions (state w) + 1 >=? sessions_until_long (settings w)
      then 0 else completedSessions (state w) + 1
  | _ => completedSessions (state w)
  end.
Proof.
  break_world w. unfold completeSession_rest; simpl.
  destruct type0; simpl; try reflexivity.
  destruct (_ >=? _); reflexivity.
Qed.


Lemma skipSession_rest_counter now w :
  completedSessions (state (skipSession_rest now w)) =
  completedSessions (state w).
Proof.
  break_world w. unfold skipSession_rest; simpl.
  destruct type0; simpl; try reflexivity.
  destruct (_ >=? _); reflexivity.
Qed.








(** ** Duration adjustment *)

Lemma clamp_range lo hi v : lo <= hi -> lo <= clamp lo hi v <= hi.
Proof. unfold clamp. lia. Qed.

Lemma settings_setSessionType now t w :
  settings (setSessionType now t w) = settings w.
Proof. reflexivity. Qed.

Lemma settings_adjustDuration now k d w :
  settings (fst (adjustDuration now k d w)) = adjust_setting k d (settings w).
Proof.
  unfold adjustDuration, saveSettingsToServer; cbn [fst].
  destruct (negb _); reflexivity.
Qed.

Lemma adjust_setting_clamped k d st :
  1 <= setting_of k (adjust_setting k d st) <= max_of k.
Proof. destruct k; cbn; apply clamp_range; lia. Qed.

Lemma adjust_setting_in_bounds k d st :
  in_bounds st -> in_bounds (adjust_setting k d st).
Proof.
  intros H k'. pose proof (H k') as Hk'.
  destruct k, k'; cbn in *; try apply clamp_range; lia.
Qed.

Lemma adjust_many_in_bounds now calls :
  forall w, in_bounds (settings w) ->
            in_bounds (settings (adjust_many now calls w)).
Proof.
  induction calls as [|[k d] rest IH]; intros w H; cbn [adjust_many].
  - exact H.
  - apply IH. rewrite settings_adjustDuration.
    now apply adjust_setting_in_bounds.
Qed.

Lemma adjust_many_app now l1 l2 w :
  adjust_many now (l1 ++ l2) w = adjust_many now l2 (adjust_many now l1 w).
Proof.
  revert w. induction l1 as [|[k d] rest IH]; intro w; cbn; [reflexivity|].
  apply IH.
Qed.

Lemma work_up_from n now :
  forall w, 59 <= work (settings w) <= 60 ->
    work (settings (adjust_many now (repeat (D_work, 1) (S n)) w)) = 60.
Proof.
  induction n as [|n IH]; intros w H.
  - cbn [repeat adjust_many]. rewrite settings_adjustDuration.
    cbn. unfold clamp. lia.
  - change (repeat (D_work, 1) (S (S n)))
      with ((D_work, 1) :: repeat (D_work, 1) (S n)).
    cbn [adjust_many]. apply IH. rewrite settings_adjustDuration.
    cbn. unfold clamp. lia.
Qed.

Lemma work_down_from n now :
  forall w, work (settings w) = 1 ->
    work (settings (adjust_many now (repeat (D_work, -1) n) w)) = 1.
Proof.
  induction n as [|n IH]; intros w H; cbn [repeat adjust_many].
  - exact H.
  - apply IH. rewrite settings_adjustDuration. cbn. unfold clamp. lia.
Qed.

(** C9. Whatever the calls to [adjustDuration] and whatever the direction,
    the setting a call adjusts ends in [1,60] for work and [1,30] for the
    breaks, and settings that are within bounds stay within bounds; from 59,
    one or more [+1] on work give 60; from 1, any number of [-1] give 1.
    The call has no failure outcome: all it emits is the re-render of the
    idle timer and the settings request. *)
Theorem adjustDuration_clamps :
  forall now calls k d w,
    let w1 := adjust_many now calls w in
    let w2 := fst (adjustDuration now k d w1) in
    1 <= setting_of k (settings w2) <= max_of k /\
    (in_bounds (settings w) -> in_bounds (settings w2)) /\
    (forall n, work (settings w) = 59 ->
       work (settings (adjust_many now (repeat (D_work, 1) (S n)) w)) = 60) /\
    (forall n, work (settings w) = 1 ->
       work (settings (adjust_many now (repeat (D_work, -1) n) w)) = 1) /\
    (exists shown,
       log w2 = log w1 ++ shown ++ [Fetch (ReqSettings (settings w2))] /\
       forall e, In e shown -> exists m s b t, e = Render m s b \/ e = Label t).
Proof.
  intros now calls k d w w1 w2. subst w2.
  rewrite settings_adjustDuration.
  split; [apply adjust_setting_clamped|].
  split; [intro H; apply adjust_setting_in_bounds;
          now apply adjust_many_in_bounds|].
  split; [intros n H; apply work_up_from; lia|].
  split; [intros n H; now apply work_down_from|].
  unfold adjustDuration, saveSettingsToServer; cbn [fst].
  destruct (negb (isRunning _)).
  - eexists [Label _; Render _ _ _]. split.
    + cbn. rewrite <- !app_assoc. reflexivity.
    + intros e [H | [H | []]]; subst e.
      * exists 0, 0, false, (type (state w1)). now right.
      * do 3 eexists. exists T_work. left. reflexivity.
  - exists []. split; [reflexivity|]. intros e [].
Qed.

Lemma adjustDuration_clamps_witness :
  work (settings (adjust_many 0 (repeat (D_work, 1) 3) work_at_59)) = 60.
Proof.
  destruct (adjustDuration_clamps 0 [] D_work 1 work_at_59) as [_ [_ [H _]]].
  apply (H 2%nat). reflexivity.
Defined.

(** ** Rehydration *)

Lemma state_setSessionType now t w :
  state (setSessionType now t w) =
  set_isPaused false
    (set_isRunning false
       (set_endTime None
          (set_duration (duration_of t (settings w)) (set_type t (state w))))).
Proof. reflexivity. Qed.

Lemma timerInterval_setSessionType now t w :
  timerInterval (setSessionType now t w) = timerInterval w.
Proof. reflexivity. Qed.

(** Whatever the stored record holds, [loadState] ends in
    [setSessionType], so the state it leaves is idle. *)
Lemma loadState_idle now p :
  isRunning (state (loadState now (initial_world (Some p)))) = false /\
  isPaused (state (loadState now (initial_world (Some p)))) = false /\
  endTime (state (loadState now (initial_world (Some p)))) = None.
Proof.
  unfold loadState; cbn [storage initial_world].
  rewrite state_setSessionType. repeat split.
Qed.

Lemma state_emit e w : state (emit e w) = state w.
Proof. reflexivity. Qed.

Lemma world_boot now stor :
  world (boot now stor) =
  emit (Fetch ReqActive) (loadState now (initial_world stor)).
Proof. reflexivity. Qed.

(** [init], once the bootstrap has settled either way, starts the interval
    only for a running state; an idle state stays idle. *)
Lemma resume_init_idle now r w :
  isRunning (state w) = false -> endTime (state w) = None ->
  let w' := resume K_init now r w in
  isRunning (state w') = false /\ endTime (state w') = None /\
  isPaused (state w') = isPaused (state w) /\
  sessionId (state w') = sessionId (state w) /\
  timerInterval w' = timerInterval w.
Proof.
  intros Hr He. break_world w. subst.
  unfold resume, resume_init, init_rest, fetchSettings_success.
  destruct r; cbn; repeat split.
Qed.

(** C1. A stored record that is running with a deadline still in the
    future does not come back running: after [loadState], and after [init]
    has finished whatever the bootstrap answered, the state is idle, its
    deadline is gone and no interval is installed; only the session id
    survives. *)
Theorem running_timer_lost_on_reload :
  forall now now' r p e,
    isRunning p = true ->
    endTime p = Some e ->
    now < e ->
    let w := world (boot now (Some p)) in
    let w' := resume K_init now' r w in
    isRunning (state w) = false /\ endTime (state w) = None /\
    isRunning (state w') = false /\ endTime (state w') = None /\
    timerInterval w' = false /\
    sessionId (state w') = sessionId p.
Proof.
  intros now now' r p e Hrun Hend Hlt w w'.
  assert (Hidle : isRunning (state w) = false /\ isPaused (state w) = false
                  /\ endTime (state w) = None).
  { subst w. rewrite world_boot, state_emit. apply loadState_idle. }
  destruct Hidle as (H1 & _ & H3).
  destruct (resume_init_idle now' r w H1 H3) as (R1 & R2 & _ & R4 & R5).
  fold w' in R1, R2, R4, R5.
  repeat split; try assumption.
  - rewrite R5. subst w. rewrite world_boot.
    unfold loadState; cbn [storage initial_world emit timerInterval].
    rewrite timerInterval_setSessionType. destruct (_ && _); reflexivity.
  - rewrite R4. subst w. rewrite world_boot.
    unfold loadState; cbn [storage initial_world emit state].
    rewrite state_setSessionType. cbn [upd_state state].
    rewrite Hrun, Hend. cbn [andb truthy num].
    replace (e <? now) with false
      by (symmetry; apply Z.ltb_ge; lia).
    rewrite andb_false_r. reflexivity.
Qed.

Lemma running_timer_lost_on_reload_witness :
  isRunning (state (resume K_init 31000 R_fail
                      (world (boot 30000 (Some stored_running))))) = false.
Proof.
  destruct (running_timer_lost_on_reload 30000 31000 R_fail stored_running
              90000 eq_refl eq_refl eq_refl) as (_ & _ & H & _).
  exact H.
Defined.

Lemma ceil_div_nonneg a : 0 <= a -> 0 <= ceil_div a 1000.
Proof.
  intro H. unfold ceil_div.
  assert (- a / 1000 <= 0) by (apply Z.div_le_upper_bound; lia).
  lia.
Qed.




Lemma sessionId_setSessionType now t w :
  sessionId (state (setSessionType now t w)) = sessionId (state w).
Proof. reflexivity. Qed.

Lemma remaining_ms_idle now s :
  isRunning s = false -> isPaused s = false ->
  remaining_ms now s = duration s * 60 * 1000.
Proof. intros H1 H2. unfold remaining_ms. rewrite H1, H2. reflexivity. Qed.





(** ** Bootstrap *)

(** C8 (as amended). A successful bootstrap sets each setting to the
    server's value, or to its default (25, 5, 15, 4) when the server's value
    is missing or zero, and sets [completedSessions] to the server's
    [today_sessions] (0 when missing), whatever the local value was; a
    failed bootstrap leaves settings and counter as they were. *)
Theorem bootstrap_overwrites_counter :
  forall now d w,
    let w' := resume K_init now (R_active d) w in
    let w0 := resume K_init now R_fail w in
    completedSessions (state w') = or_default (today_sessions d) 0 /\
    settings w' =
      mkSettings (or_default (pomodoro_work_duration d) 25)
                 (or_default (pomodoro_short_break d) 5)
                 (or_default (pomodoro_long_break d) 15)
                 (or_default (pomodoro_sessions_until_long d) 4) /\
    completedSessions (state w0) = completedSessions (state w) /\
    settings w0 = settings w.
Proof.
  intros now d w. break_world w.
  unfold resume, resume_init, init_rest, fetchSettings_success; cbn.
  repeat split;
    destruct isRunning0; cbn; try reflexivity;
    destruct (truthy endTime0); reflexivity.
Qed.

(** A counter of 2 rehydrated from the store is replaced by the server's
    count of 5. *)
Lemma bootstrap_replaces_local_counter :
  completedSessions (state (world (boot 1000 (Some stored_two_done)))) = 2 /\
  completedSessions
    (state (resume K_init 1200 (R_active server_five_today)
              (world (boot 1000 (Some stored_two_done))))) = 5.
Proof. split; reflexivity. Qed.

(** ** Expiry observed by the interval callback *)






(** ** Invariants of the reachable states *)

Lemma inv_initial : timer_inv initial_state.
Proof. inv_solve. Qed.

Lemma inv_setSessionType now t w :
  timer_inv (state (setSessionType now t w)).
Proof. rewrite state_setSessionType. inv_solve. Qed.

Lemma inv_selectType now t w :
  timer_inv (state w) -> timer_inv (state (selectType now t w)).
Proof.
  intro H. unfold selectType. destruct (negb _); [|exact H].
  apply inv_setSessionType.
Qed.

Lemma inv_toggleTimer now w : timer_inv (state (fst (toggleTimer now w))).
Proof.
  break_world w. unfold toggleTimer; cbn.
  destruct isRunning0; cbn; [inv_solve|].
  destruct (isPaused0 && truthy pausedRemaining0); cbn;
    destruct (negb (truthy_str sessionId0)); cbn; inv_solve.
Qed.

Lemma inv_resume_toggleTimer now r w :
  timer_inv (state w) -> timer_inv (state (resume_toggleTimer now r w)).
Proof.
  intro H. break_world w. unfold resume_toggleTimer.
  destruct r as [| |[] ?|]; cbn; exact H.
Qed.

Lemma inv_completeSession_rest now w :
  timer_inv (state (completeSession_rest now w)).
Proof.
  break_world w. unfold completeSession_rest; cbn.
  destruct type0; cbn; try inv_solve.
  destruct (_ >=? _); inv_solve.
Qed.

Lemma inv_completeSession now w :
  timer_inv (state w) -> timer_inv (state (fst (completeSession now w))).
Proof.
  intro H. unfold completeSession.
  destruct (sessionId _) as [id|]; [destruct (truthy_str _)|]; cbn [fst];
    try apply inv_completeSession_rest.
  break_world w. inv_solve.
Qed.

Lemma inv_tick now w :
  timer_inv (state w) -> timer_inv (state (fst (tick now w))).
Proof.
  intro H. unfold tick. destruct (_ <=? _).
  - pose proof (inv_completeSession now (clearInterval w) H) as H'.
    destruct (completeSession now (clearInterval w)) as [w1 k].
    exact H'.
  - exact H.
Qed.

Lemma inv_resetTimer_rest now w : timer_inv (state (resetTimer_rest now w)).
Proof. break_world w. unfold resetTimer_rest. inv_solve. Qed.

Lemma inv_resetTimer now w :
  timer_inv (state w) -> timer_inv (state (fst (resetTimer now w))).
Proof.
  intro H. unfold resetTimer.
  destruct (sessionId _) as [id|]; [destruct (truthy_str _)|]; cbn [fst];
    try apply inv_resetTimer_rest.
  exact H.
Qed.

Lemma inv_skipSession_rest now w : timer_inv (state (skipSession_rest now w)).
Proof.
  break_world w. unfold skipSession_rest; cbn.
  destruct type0; cbn; try inv_solve.
  destruct (_ >=? _); inv_solve.
Qed.

Lemma inv_skipSession now w :
  timer_inv (state w) -> timer_inv (state (fst (skipSession now w))).
Proof.
  intro H. unfold skipSession.
  destruct (sessionId _) as [id|]; [destruct (truthy_str _)|]; cbn [fst];
    try apply inv_skipSession_rest.
  exact H.
Qed.

Lemma inv_adjustDuration now k d w :
  timer_inv (state w) -> timer_inv (state (fst (adjustDuration now k d w))).
Proof.
  intro H. unfold adjustDuration, saveSettingsToServer. cbn [fst].
  rewrite state_emit. destruct (negb _).
  - apply inv_setSessionType.
  - exact H.
Qed.

Lemma inv_selectClass v w :
  timer_inv (state w) -> timer_inv (state (selectClass v w)).
Proof. intro H. break_world w. unfold selectClass. inv_solve. Qed.

Lemma inv_resume_init now r w :
  timer_inv (state w) -> timer_inv (state (resume_init now r w)).
Proof.
  intro H. break_world w.
  unfold resume_init, init_rest, fetchSettings_success.
  destruct r; cbn;
    repeat match goal with
           | |- context [if ?b then _ else _] => destruct b; cbn
           end; inv_solve.
Qed.

Lemma inv_loadState now stor :
  timer_inv (state (loadState now (initial_world stor))).
Proof.
  destruct stor as [p|].
  - unfold loadState; cbn [storage initial_world].
    apply inv_setSessionType.
  - exact inv_initial.
Qed.

Lemma inv_resume k now r w :
  timer_inv (state w) -> timer_inv (state (resume k now r w)).
Proof.
  intro H. destruct k; cbn [resume].
  - now apply inv_resume_init.
  - now apply inv_resume_toggleTimer.
  - apply inv_completeSession_rest.
  - apply inv_resetTimer_rest.
  - apply inv_skipSession_rest.
  - exact H.
Qed.

Lemma world_suspend p ks : world (suspend p ks) = fst p.
Proof. unfold suspend. destruct (snd p); reflexivity. Qed.

Lemma inv_boot now stor : timer_inv (state (world (boot now stor))).
Proof. rewrite world_boot, state_emit. apply inv_loadState. Qed.

Lemma inv_step now ev sys :
  timer_inv (state (world sys)) -> timer_inv (state (world (step now ev sys))).
Proof.
  intro H. destruct ev; cbn [step]; rewrite ?world_suspend; cbn [world].
  - apply inv_boot.
  - now apply inv_selectType.
  - apply inv_toggleTimer.
  - now apply inv_resetTimer.
  - now apply inv_skipSession.
  - now apply inv_adjustDuration.
  - now apply inv_selectClass.
  - destruct (timerInterval _); rewrite ?world_suspend;
      [now apply inv_tick | exact H].
  - destruct (nth_error _ _); cbn [world]; [now apply inv_resume | exact H].
Qed.

(** C6 (as amended). In every state reachable through page loads, the
    user's operations, interval callbacks and settled requests, [endTime]
    is set exactly when the state is running, and a paused state has its
    [pausedRemaining] set; running and paused exclude each other. *)
Theorem reachable_timer_invariant :
  forall sys,
    reachable sys ->
    (isRunning (state (world sys)) = true <->
     endTime (state (world sys)) <> None) /\
    (isPaused (state (world sys)) = true ->
     pausedRemaining (state (world sys)) <> None) /\
    (isRunning (state (world sys)) = true ->
     isPaused (state (world sys)) = false).
Proof.
  intros sys H. change (timer_inv (state (world sys))).
  induction H as [now stor | now ev sys _ IH].
  - apply inv_boot.
  - now apply inv_step.
Qed.

Lemma reachable_timer_invariant_witness :
  reachable start_then_pause /\
  pausedRemaining (state (world start_then_pause)) <> None.
Proof.
  assert (R : reachable start_then_pause)
    by (unfold start_then_pause; repeat apply reach_step; apply reach_boot).
  split; [exact R|].
  apply (reachable_timer_invariant start_then_pause R).
  vm_compute. reflexivity.
Defined.

(** Start, pause, then pick a type tab: the state is idle, yet the
    remainder snapshotted by the pause is still set. *)
Lemma stale_remainder_reachable :
  reachable pause_then_select /\
  isPaused (state (world pause_then_select)) = false /\
  pausedRemaining (state (world pause_then_select)) = Some 1498000 /\
  ~ remainder_iff_paused (state (world pause_then_select)).
Proof.
  split; [unfold pause_then_select, start_then_pause;
          repeat apply reach_step; apply reach_boot|].
  split; [vm_compute; reflexivity|].
  split; [vm_compute; reflexivity|].
  intros [_ H]. assert (E : isPaused (state (world pause_then_select)) = true).
  { apply H. vm_compute. discriminate. }
  vm_compute in E. discriminate E.
Qed.

(** ** The work-session counter *)

Lemma counter_frame_range w w' :
  counter_frame w w' -> counter_in_range w -> counter_in_range w'.
Proof. unfold counter_frame, counter_in_range. intros [-> ->]. auto. Qed.

Lemma frame_setSessionType now t w : counter_frame w (setSessionType now t w).
Proof. split; reflexivity. Qed.

Lemma frame_selectType now t w : counter_frame w (selectType now t w).
Proof. unfold selectType. destruct (negb _); split; reflexivity. Qed.

Lemma frame_toggleTimer now w : counter_frame w (fst (toggleTimer now w)).
Proof.
  break_world w. unfold toggleTimer; cbn.
  destruct isRunning0; cbn; [split; reflexivity|].
  destruct (isPaused0 && truthy pausedRemaining0); cbn;
    destruct (negb (truthy_str sessionId0)); split; reflexivity.
Qed.

Lemma frame_resume_toggleTimer now r w :
  counter_frame w (resume_toggleTimer now r w).
Proof.
  unfold resume_toggleTimer. destruct r as [| |[] ?|]; split; reflexivity.
Qed.

Lemma frame_resetTimer now w : counter_frame w (fst (resetTimer now w)).
Proof.
  unfold resetTimer.
  destruct (sessionId _) as [id|]; [destruct (truthy_str _)|];
    split; reflexivity.
Qed.

Lemma frame_skipSession_rest now w : counter_frame w (skipSession_rest now w).
Proof.
  split; [apply skipSession_rest_counter|].
  break_world w. unfold skipSession_rest; cbn.
  destruct type0; cbn; try reflexivity. destruct (_ >=? _); reflexivity.
Qed.

Lemma frame_skipSession now w : counter_frame w (fst (skipSession now w)).
Proof.
  unfold skipSession.
  destruct (sessionId _) as [id|]; [destruct (truthy_str _)|]; cbn [fst];
    try apply frame_skipSession_rest; split; reflexivity.
Qed.

Lemma frame_adjustDuration now k d w :
  counter_frame w (fst (adjustDuration now k d w)).
Proof.
  unfold adjustDuration, saveSettingsToServer; cbn [fst].
  destruct (negb _); destruct k; split; reflexivity.
Qed.

Lemma frame_init_rest now w : counter_frame w (init_rest now w).
Proof. unfold init_rest. destruct (_ && _); split; reflexivity. Qed.

Lemma range_completeSession_rest now w :
  counter_in_range w -> counter_in_range (completeSession_rest now w).
Proof.
  unfold counter_in_range. intro H.
  rewrite completeSession_rest_counter.
  replace (sessions_until_long (settings (completeSession_rest now w)))
    with (sessions_until_long (settings w)).
  - destruct (type (state w)); try exact H.
    destruct (_ >=? _) eqn:E; [lia|].
    rewrite Z.geb_leb in E. apply Z.leb_gt in E. lia.
  - break_world w. unfold completeSession_rest; cbn.
    destruct type0; cbn; try reflexivity. destruct (_ >=? _); reflexivity.
Qed.

Lemma range_completeSession now w :
  counter_in_range w -> counter_in_range (fst (completeSession now w)).
Proof.
  intro H. unfold completeSession.
  destruct (sessionId _) as [id|]; [destruct (truthy_str _)|]; cbn [fst];
    try (apply range_completeSession_rest; exact H); exact H.
Qed.

Lemma range_tick now w :
  counter_in_range w -> counter_in_range (fst (tick now w)).
Proof.
  intro H. unfold tick. destruct (_ <=? _).
  - pose proof (range_completeSession now (clearInterval w) H) as H'.
    destruct (completeSession now (clearInterval w)) as [w1 k].
    exact H'.
  - exact H.
Qed.

Lemma range_step now ev sys :
  bootstraps ev sys = false ->
  counter_in_range (world sys) ->
  counter_in_range (world (step now ev sys)).
Proof.
  intros Hb H. destruct ev; cbn [step]; rewrite ?world_suspend; cbn [world].
  - discriminate Hb.
  - exact (counter_frame_range _ _ (frame_selectType _ _ _) H).
  - exact (counter_frame_range _ _ (frame_toggleTimer _ _) H).
  - exact (counter_frame_range _ _ (frame_resetTimer _ _) H).
  - exact (counter_frame_range _ _ (frame_skipSession _ _) H).
  - exact (counter_frame_range _ _ (frame_adjustDuration _ _ _ _) H).
  - exact H.
  - destruct (timerInterval _); rewrite ?world_suspend;
      [now apply range_tick | exact H].
  - cbn [bootstraps] in Hb.
    destruct (nth_error _ _) as [k|]; cbn [world]; [|exact H].
    destruct k; cbn [resume].
    + destruct r; try discriminate Hb;
        exact (counter_frame_range _ _ (frame_init_rest _ _) H).
    + exact (counter_frame_range _ _ (frame_resume_toggleTimer _ _ _) H).
    + now apply range_completeSession_rest.
    + exact H.
    + exact (counter_frame_range _ _ (frame_skipSession_rest _ _) H).
    + exact H.
Qed.

(** C7 (as amended). Every transition other than a page load and a
    successful bootstrap keeps [completedSessions] within
    [0, sessions_until_long) when it was there before, and the first load
    with nothing stored starts there; a work completion whose increment
    reaches [sessions_until_long] resets the counter to 0 and selects the
    long break in that same transition. *)
Theorem counter_range_kept_locally :
  forall now ev sys,
    bootstraps ev sys = false ->
    counter_in_range (world sys) ->
    counter_in_range (world (step now ev sys)) /\
    counter_in_range (world (boot now None)) /\
    (forall w,
       type (state w) = T_work ->
       completedSessions (state w) + 1 >= sessions_until_long (settings w) ->
       completedSessions (state (completeSession_rest now w)) = 0 /\
       type (state (completeSession_rest now w)) = T_long_break).
Proof.
  intros now ev sys Hb H.
  split; [now apply range_step|].
  split; [unfold counter_in_range; cbn; lia|].
  intros w Hw Hc.
  rewrite completeSession_rest_counter, completeSession_rest_type, Hw.
  unfold next_type.
  replace (_ >=? _) with true; [split; reflexivity|].
  symmetry. rewrite Z.geb_leb. apply Z.leb_le. lia.
Qed.

Lemma counter_range_kept_locally_witness :
  counter_in_range (world (step 91000 E_tick third_work_session_running)).
Proof.
  apply (counter_range_kept_locally 91000 E_tick third_work_session_running
           eq_refl).
  unfold counter_in_range. cbn. lia.
Defined.

(** After a bootstrap that reports ten sessions today with a long break
    every four, the counter is 10. *)
Lemma bootstrap_counter_out_of_range :
  reachable bootstrapped_ten /\
  completedSessions (state (world bootstrapped_ten)) = 10 /\
  sessions_until_long (settings (world bootstrapped_ten)) = 4 /\
  ~ counter_in_range (world bootstrapped_ten).
Proof.
  split; [apply reach_step; apply reach_boot|].
  split; [vm_compute; reflexivity|].
  split; [vm_compute; reflexivity|].
  unfold counter_in_range. vm_compute. intros [_ H]. discriminate H.
Qed.

(** ** Starting, pausing and resuming *)

(** X1. Pausing a running timer before its deadline and resuming it later
    moves the deadline by exactly the length of the pause: the time that was
    left at the pause is what is left at the resume. *)
Theorem pause_resume_keeps_remaining :
  forall t1 t2 w e,
    isRunning (state w) = true ->
    endTime (state w) = Some e ->
    t1 < e ->
    0 <= t2 ->
    let w2 := fst (toggleTimer t2 (fst (toggleTimer t1 w))) in
    isRunning (state w2) = true /\
    isPaused (state w2) = false /\
    endTime (state w2) = Some (t2 + (e - t1)) /\
    pausedRemaining (state w2) = None /\
    remaining_ms t2 (state w2) = e - t1.
Proof.
  intros t1 t2 w e Hrun Hend Hlt Ht2.
  break_world w. subst.
  unfold toggleTimer; cbn.
  replace (Z.max 0 (e - t1)) with (e - t1) by lia.
  assert (Hnz : (e - t1 =? 0) = false) by (apply Z.eqb_neq; lia).
  rewrite Hnz. cbn.
  assert (Hrem : remaining_ms t2
                   (mkState true false sessionId0 type0
                      (Some (t2 + (e - t1))) duration0 classId0
                      completedSessions0 None) = e - t1).
  { unfold remaining_ms; cbn.
    assert (Hnz' : (t2 + (e - t1) =? 0) = false) by (apply Z.eqb_neq; lia).
    rewrite Hnz'. cbn. lia. }
  destruct (negb (truthy_str sessionId0)); cbn; repeat split; exact Hrem.
Qed.

Lemma pause_resume_keeps_remaining_witness :
  endTime (state (fst (toggleTimer 50000
                         (fst (toggleTimer 30000 running_with_session)))))
  = Some 110000.
Proof.
  destruct (pause_resume_keeps_remaining 30000 50000 running_with_session
              90000 eq_refl eq_refl eq_refl ltac:(discriminate))
    as (_ & _ & H & _).
  exact H.
Defined.

(** X2. Pausing at or after the deadline, before the interval callback has
    seen the expiry, stores a remainder of 0; the next press of the button
    does not resume but starts a full new interval of [duration] minutes,
    and the stored 0 stays. *)
Theorem pause_at_deadline_restarts :
  forall t1 t2 w e,
    isRunning (state w) = true ->
    endTime (state w) = Some e ->
    e <= t1 ->
    let w1 := fst (toggleTimer t1 w) in
    let w2 := fst (toggleTimer t2 w1) in
    pausedRemaining (state w1) = Some 0 /\
    isPaused (state w1) = true /\
    isRunning (state w2) = true /\
    endTime (state w2) = Some (t2 + duration (state w) * 60 * 1000) /\
    pausedRemaining (state w2) = Some 0.
Proof.
  intros t1 t2 w e Hrun Hend Hle.
  break_world w. subst.
  unfold toggleTimer; cbn.
  replace (Z.max 0 (e - t1)) with 0 by lia.
  change (0 =? 0) with true. cbn.
  destruct (negb (truthy_str sessionId0)); cbn; repeat split.
Qed.

Lemma pause_at_deadline_restarts_witness :
  endTime (state (fst (toggleTimer 95000
                         (fst (toggleTimer 90000 running_with_session)))))
  = Some 1595000.
Proof.
  destruct (pause_at_deadline_restarts 90000 95000 running_with_session
              90000 eq_refl eq_refl ltac:(discriminate))
    as (_ & _ & _ & H & _).
  exact H.
Defined.

(** X3. Starting from a state that is neither running nor paused sets the
    deadline to [now + duration * 60000].  With no session id held, the
    start request carrying the type, the duration and the class is sent and
    awaited: until it settles the interval is not installed and nothing is
    saved.  With a session id held, no request is sent, the interval is
    installed and the state is saved at once. *)
Theorem start_from_idle :
  forall now w,
    isRunning (state w) = false ->
    isPaused (state w) = false ->
    let p := toggleTimer now w in
    isRunning (state (fst p)) = true /\
    endTime (state (fst p)) = Some (now + duration (state w) * 60 * 1000) /\
    (truthy_str (sessionId (state w)) = false ->
       snd p = Some K_toggleTimer /\
       log (fst p) = log w ++ [Fetch (ReqStart (type (state w))
                                        (duration (state w))
                                        (classId (state w)))] /\
       timerInterval (fst p) = timerInterval w /\
       storage (fst p) = storage w) /\
    (truthy_str (sessionId (state w)) = true ->
       snd p = None /\
       (forall r, In (Fetch r) (log (fst p)) -> In (Fetch r) (log w)) /\
       timerInterval (fst p) = true /\
       storage (fst p) = Some (state (fst p))).
Proof.
  intros now w Hrun Hp.
  break_world w. subst.
  unfold toggleTimer; cbn.
  destruct (truthy_str sessionId0) eqn:T; cbn.
  - repeat split; try discriminate.
    intros r Hin. apply in_app_or in Hin. destruct Hin as [Hin | [Hin | []]];
      [exact Hin | discriminate Hin].
  - repeat split; discriminate.
Qed.

Lemma start_from_idle_witness :
  snd (toggleTimer 1000 idle_work) = Some K_toggleTimer /\
  endTime (state (fst (toggleTimer 1000 idle_work))) = Some 1501000.
Proof.
  destruct (start_from_idle 1000 idle_work eq_refl eq_refl)
    as (_ & H2 & H3 & _).
  destruct (H3 eq_refl) as (H & _).
  split; [exact H | exact H2].
Defined.

(** X4. When the start request settles, the interval is installed and the
    state is saved whatever the answer; the session id is taken from the
    answer only when it reports success, and every other field of the state
    is as it was, so a failed request leaves a timer that runs without a
    session id. *)
Theorem start_request_settles :
  forall now r w,
    let w' := resume K_toggleTimer now r w in
    timerInterval w' = true /\
    storage w' = Some (state w') /\
    sessionId (state w') =
      match r with
      | R_start true id => id
      | _ => sessionId (state w)
      end /\
    set_sessionId (sessionId (state w)) (state w') = state w.
Proof.
  intros now r w. break_world w.
  unfold resume_toggleTimer.
  destruct r as [| |[] ?|]; cbn; repeat split.
Qed.

(** ** Reset, and handlers that hold no session id *)


(** X5. [resetTimer], once its cancel request (if any) has settled, leaves
    an idle state with no deadline, no remainder and no session id, stops
    the interval and saves the state; type, duration, class, counter and
    settings are untouched. *)
Theorem resetTimer_returns_to_idle :
  forall now now' r w,
    let w' := run_to_end (resetTimer now w) now' r in
    (isRunning (state w') = false /\ isPaused (state w') = false /\
     endTime (state w') = None /\ pausedRemaining (state w') = None /\
     sessionId (state w') = None) /\
    timerInterval w' = false /\
    storage w' = Some (state w') /\
    (type (state w') = type (state w) /\
     duration (state w') = duration (state w) /\
     classId (state w') = classId (state w) /\
     completedSessions (state w') = completedSessions (state w) /\
     settings w' = settings w).
Proof.
  intros now now' r w. break_world w.
  unfold run_to_end, resetTimer; cbn.
  destruct sessionId0 as [id|]; cbn;
    [destruct (negb (String.eqb id "")); cbn|]; repeat split.
Qed.






(** ** The display *)

Lemma ceil_div_bounds r :
  1000 * ceil_div r 1000 - 1000 < r <= 1000 * ceil_div r 1000.
Proof.
  unfold ceil_div.
  pose proof (Z.div_mod (- r) 1000 ltac:(lia)) as E.
  pose proof (Z.mod_pos_bound (- r) 1000 ltac:(lia)) as B.
  lia.
Qed.

(** X7. The time that [updateDisplay] shows: whenever the remaining time is
    not negative, the minutes are not negative, the seconds lie in
    [0, 60), and minutes and seconds together are the remaining
    milliseconds rounded up to a whole second; the pause icon is shown
    exactly while running.  Nothing but the display changes. *)
Theorem updateDisplay_rounds_up :
  forall now w,
    0 <= remaining_ms now (state w) ->
    exists mins secs,
      log (updateDisplay now w) =
        log w ++ [Render mins secs (isRunning (state w))] /\
      0 <= mins /\ 0 <= secs < 60 /\
      1000 * (60 * mins + secs) - 1000 < remaining_ms now (state w)
        <= 1000 * (60 * mins + secs) /\
      state (updateDisplay now w) = state w /\
      storage (updateDisplay now w) = storage w.
Proof.
  intros now w H.
  exists (ceil_div (remaining_ms now (state w)) 1000 / 60),
         (Z.rem (ceil_div (remaining_ms now (state w)) 1000) 60).
  pose proof (ceil_div_bounds (remaining_ms now (state w))) as B.
  pose proof (ceil_div_nonneg _ H) as N.
  set (total := ceil_div (remaining_ms now (state w)) 1000) in *.
  split; [reflexivity|].
  rewrite (Z.rem_mod_nonneg total 60) by lia.
  pose proof (Z.div_mod total 60 ltac:(lia)) as E.
  pose proof (Z.mod_pos_bound total 60 ltac:(lia)) as M.
  assert (0 <= total / 60) by (apply Z.div_pos; lia).
  repeat split; try lia.
Qed.

Lemma updateDisplay_rounds_up_witness :
  exists mins secs,
    log (updateDisplay 30500 running_with_session) =
      [Render mins secs true] /\ 0 <= secs < 60.
Proof.
  destruct (updateDisplay_rounds_up 30500 running_with_session
              ltac:(vm_compute; discriminate))
    as (mins & secs & H1 & _ & H2 & _).
  exists mins, secs. split; [exact H1 | exact H2].
Defined.

Lemma tick_early now w e :
  endTime (state w) = Some e -> now < e ->
  tick now w = (updateDisplay now w, None).
Proof.
  intros He Hlt. unfold tick. rewrite He. cbn [num].
  replace (e - now <=? 0) with false by (symmetry; apply Z.leb_gt; lia).
  reflexivity.
Qed.

(** X8. While the deadline lies ahead the interval callback only redraws,
    however often and at whatever instants it fires: after any callbacks
    before the deadline the state, the settings, the stored record and the
    interval are as before and nothing is awaited, so the time shown next
    depends on the clock alone and not on the callbacks that ran or were
    missed. *)
Theorem ticks_before_deadline :
  forall times now w e,
    endTime (state w) = Some e ->
    Forall (fun t => t < e) times ->
    state (ticks times w) = state w /\
    settings (ticks times w) = settings w /\
    storage (ticks times w) = storage w /\
    timerInterval (ticks times w) = timerInterval w /\
    List.length (log (ticks times w))
      = (List.length (log w) + List.length times)%nat /\
    (now < e -> snd (tick now (ticks times w)) = None) /\
    remaining_ms now (state (ticks times w)) = remaining_ms now (state w).
Proof.
  induction times as [|t times IH]; intros now w e He Hall.
  - cbn [ticks fold_left List.length]. rewrite Nat.add_0_r.
    repeat split. intro Hlt. rewrite (tick_early now w e He Hlt). reflexivity.
  - inversion Hall as [|t' times' Ht Hrest]; subst.
    unfold ticks. cbn [fold_left]. fold (ticks times (fst (tick t w))).
    rewrite (tick_early t w e He Ht). cbn [fst].
    assert (He' : endTime (state (updateDisplay t w)) = Some e) by exact He.
    destruct (IH now (updateDisplay t w) e He' Hrest)
      as (I1 & I2 & I3 & I4 & I5 & I6 & I7).
    rewrite I1, I2, I3, I4, I5.
    repeat split; [|exact I6].
    unfold updateDisplay, emit. cbn [log List.length].
    rewrite length_app. cbn [List.length]. lia.
Qed.

Lemma ticks_before_deadline_witness :
  state (ticks [31000; 32000; 45000] running_with_session)
  = state running_with_session.
Proof.
  destruct (ticks_before_deadline [31000; 32000; 45000] 50000
              running_with_session 90000 eq_refl
              ltac:(repeat constructor)) as (H & _).
  exact H.
Defined.

Lemma ceil_div_exact k : ceil_div (k * 1000) 1000 = k.
Proof.
  unfold ceil_div. rewrite <- Z.mul_opp_l, Z.div_mul by lia. lia.
Qed.

(** X9. A click on a type tab is ignored while the timer runs.  Otherwise
    it selects the type, takes the duration from the settings, leaves an
    idle state, saves it, and shows that duration as whole minutes and zero
    seconds; the class, the counter and the session id are kept. *)
Theorem selectType_sets_duration :
  forall now t w,
    (isRunning (state w) = true -> selectType now t w = w) /\
    (isRunning (state w) = false ->
       let w' := selectType now t w in
       type (state w') = t /\
       duration (state w') = duration_of t (settings w) /\
       isRunning (state w') = false /\ isPaused (state w') = false /\
       endTime (state w') = None /\
       log w' = log w ++ [Label t; Render (duration_of t (settings w)) 0 false] /\
       storage w' = Some (state w') /\
       classId (state w') = classId (state w) /\
       completedSessions (state w') = completedSessions (state w) /\
       sessionId (state w') = sessionId (state w)).
Proof.
  intros now t w. unfold selectType. split; intro H; rewrite H; cbn [negb].
  - reflexivity.
  - break_world w. unfold setSessionType, updateDisplay; cbn.
    rewrite remaining_ms_idle by reflexivity. cbn.
    rewrite ceil_div_exact, Z.div_mul, Z.rem_mul by lia.
    rewrite <- app_assoc. repeat split.
Qed.

Lemma selectType_sets_duration_witness :
  duration (state (selectType 1000 T_long_break paused_with_session)) = 15 /\
  selectType 1000 T_long_break running_with_session = running_with_session.
Proof.
  destruct (selectType_sets_duration 1000 T_long_break paused_with_session)
    as [_ H].
  destruct (H eq_refl) as (_ & H1 & _).
  destruct (selectType_sets_duration 1000 T_long_break running_with_session)
    as [H2 _].
  split; [exact H1 | exact (H2 eq_refl)].
Defined.

(** ** A reset while the start request is in flight *)





(** ** What a reload restores *)



Lemma timerInterval_emit e w : timerInterval (emit e w) = timerInterval w.
Proof. reflexivity. Qed.

Lemma boot_idle now stor :
  isRunning (state (world (boot now stor))) = false /\
  endTime (state (world (boot now stor))) = None /\
  timerInterval (world (boot now stor)) = false.
Proof.
  rewrite world_boot, state_emit, timerInterval_emit.
  destruct stor as [p|]; [|repeat split].
  unfold loadState. cbn [storage initial_world state upd_state].
  rewrite state_setSessionType, timerInterval_setSessionType.
  destruct (isRunning p && truthy (endTime p) && (num (endTime p) <? now));
    repeat split.
Qed.


(** X12. After a successful bootstrap at start-up the duration is the
    server's work duration (25 when missing or zero) whatever the type that
    was restored, so a restored break is shown with the length of a work
    session; the type itself, the class and the session id are kept, and
    the stored record is not rewritten. *)
Theorem bootstrap_sets_work_duration :
  forall now now' stor d,
    let w := world (boot now stor) in
    let w' := resume K_init now' (R_active d) w in
    duration (state w') = or_default (pomodoro_work_duration d) 25 /\
    type (state w') = type (state w) /\
    classId (state w') = classId (state w) /\
    sessionId (state w') = sessionId (state w) /\
    storage w' = storage w /\
    timerInterval w' = false.
Proof.
  intros now now' stor d w w'.
  destruct (boot_idle now stor) as (I1 & I2 & I3).
  fold w in I1, I2, I3.
  subst w'. clearbody w.
  break_world w. subst.
  unfold resume, resume_init, init_rest, fetchSettings_success; cbn.
  repeat split.
Qed.

(** X13. The handlers that end a transition save the state they leave:
    after a type selection, a pause, a settled start request, a completion,
    a reset, a skip or a class selection, the stored record is the state in
    memory.  The bootstrap changes counter and duration without saving. *)
Theorem stored_record_is_current :
  forall now r t v w,
    storage (setSessionType now t w) = Some (state (setSessionType now t w)) /\
    (isRunning (state w) = true ->
     storage (fst (toggleTimer now w)) = Some (state (fst (toggleTimer now w)))) /\
    storage (resume K_toggleTimer now r w)
      = Some (state (resume K_toggleTimer now r w)) /\
    storage (resume K_completeSession now r w)
      = Some (state (resume K_completeSession now r w)) /\
    storage (resume K_resetTimer now r w)
      = Some (state (resume K_resetTimer now r w)) /\
    storage (resume K_skipSession now r w)
      = Some (state (resume K_skipSession now r w)) /\
    storage (selectClass v w) = Some (state (selectClass v w)) /\
    storage (resume K_init now r w) = storage w.
Proof.
  intros now r t v w. break_world w.
  split; [reflexivity|].
  split; [intro H; subst; reflexivity|].
  split; [unfold resume_toggleTimer; destruct r as [| |[] ?|]; reflexivity|].
  split; [unfold completeSession_rest; cbn;
          destruct type0; cbn; try reflexivity;
          destruct (_ >=? _); reflexivity|].
  split; [reflexivity|].
  split; [unfold skipSession_rest; cbn;
          destruct type0; cbn; try reflexivity;
          destruct (_ >=? _); reflexivity|].
  split; [reflexivity|].
  unfold resume_init, init_rest, fetchSettings_success.
  destruct r; cbn;
    repeat match goal with
           | |- context [if ?b then _ else _] => destruct b; cbn
           end; reflexivity.
Qed.

Lemma stored_record_is_current_witness :
  storage (fst (toggleTimer 30000 running_with_session))
  = Some (state (fst (toggleTimer 30000 running_with_session))).
Proof.
  destruct (stored_record_is_current 30000 R_fail T_work EmptyString
              running_with_session) as (_ & H & _).
  exact (H eq_refl).
Defined.

(** ** Session indicators *)

Lemma dots_from c n :
  forall a,
    map (fun i => Z.of_nat i <? c) (seq a n) =
    repeat true (Nat.min n (Z.to_nat c - a)) ++
    repeat false (n - Nat.min n (Z.to_nat c - a)).
Proof.
  induction n as [|n IH]; intro a; [reflexivity|].
  cbn [seq map]. rewrite IH.
  destruct (Z.of_nat a <? c) eqn:E.
  - apply Z.ltb_lt in E.
    replace (Nat.min (S n) (Z.to_nat c - a))
      with (S (Nat.min n (Z.to_nat c - S a))) by lia.
    reflexivity.
  - apply Z.ltb_ge in E.
    replace (Nat.min n (Z.to_nat c - S a)) with O by lia.
    replace (Nat.min (S n) (Z.to_nat c - a)) with O by lia.
    rewrite !Nat.sub_0_r. reflexivity.
Qed.

(** X14. [updateSessionIndicators] draws as many dots as there are sessions
    until the long break (none when that setting is not positive); the
    filled dots come first and there are min(completed, until-long) of them
    (none for a counter that is not positive); so with the counter at or
    above the threshold every dot is filled. *)
Theorem updateSessionIndicators_dots :
  forall w,
    let n := Z.to_nat (sessions_until_long (settings w)) in
    let k := Z.to_nat (Z.min (completedSessions (state w))
                             (sessions_until_long (settings w))) in
    List.length (updateSessionIndicators w) = n /\
    updateSessionIndicators w = repeat true k ++ repeat false (n - k) /\
    (sessions_until_long (settings w) <= completedSessions (state w) ->
     updateSessionIndicators w = repeat true n).
Proof.
  intros w n k. unfold updateSessionIndicators.
  split; [rewrite length_map, length_seq; reflexivity|].
  rewrite dots_from. fold n.
  replace (Nat.min n (Z.to_nat (completedSessions (state w)) - 0)) with k
    by (subst n k; lia).
  split; [reflexivity|].
  intro H. replace k with n by (subst n k; lia).
  rewrite Nat.sub_diag. cbn [repeat]. apply app_nil_r.
Qed.

Lemma updateSessionIndicators_dots_witness :
  updateSessionIndicators (world bootstrapped_ten) = repeat true 4%nat.
Proof.
  destruct (updateSessionIndicators_dots (world bootstrapped_ten))
    as (_ & _ & H).
  apply H. vm_compute. discriminate.
Defined.

(** ** Duration adjustment and the current timer *)

(** X15. [adjustDuration] leaves the state of a running timer alone.  On a
    timer that is not running, whichever duration is adjusted, it re-selects
    the current type: the duration becomes that type's adjusted setting and
    the state becomes idle, so a paused timer loses its pause and shows the
    full duration again. *)
Theorem adjustDuration_reselects_type :
  forall now k d w,
    let w' := fst (adjustDuration now k d w) in
    (isRunning (state w) = true -> state w' = state w) /\
    (isRunning (state w) = false ->
       isRunning (state w') = false /\ isPaused (state w') = false /\
       endTime (state w') = None /\
       type (state w') = type (state w) /\
       duration (state w') =
         duration_of (type (state w)) (adjust_setting k d (settings w)) /\
       remaining_ms now (state w') = duration (state w') * 60 * 1000).
Proof.
  intros now k d w w'. subst w'.
  unfold adjustDuration, saveSettingsToServer. cbn [fst].
  rewrite state_emit. cbn [upd_settings state].
  split; intro H; rewrite H; cbn [negb].
  - reflexivity.
  - rewrite state_setSessionType. cbn. repeat split.
Qed.

Lemma adjustDuration_reselects_type_witness :
  isPaused (state paused_with_session) = true /\
  isPaused (state (fst (adjustDuration 1000 D_long 1 paused_with_session)))
  = false /\
  duration (state (fst (adjustDuration 1000 D_work 1 paused_with_session)))
  = 26.
Proof.
  destruct (adjustDuration_reselects_type 1000 D_long 1 paused_with_session)
    as [_ H].
  destruct (H eq_refl) as (_ & H1 & _).
  destruct (adjustDuration_reselects_type 1000 D_work 1 paused_with_session)
    as [_ H'].
  destruct (H' eq_refl) as (_ & _ & _ & _ & H2 & _).
  split; [reflexivity | split; [exact H1 | exact H2]].
Defined.

(** X16. An adjustment touches only the setting it names: the other two
    durations and the long-break threshold are unchanged.  Strictly inside
    the bounds a step up followed by a step down (or down, then up) gives
    the setting back; at the upper bound, up then down ends one below. *)
Theorem adjust_setting_frame_and_undo :
  forall k st,
    (forall d k', k' <> k ->
       setting_of k' (adjust_setting k d st) = setting_of k' st) /\
    (forall d,
       sessions_until_long (adjust_setting k d st) = sessions_until_long st) /\
    (1 <= setting_of k st -> setting_of k st + 1 <= max_of k ->
       adjust_setting k (-1) (adjust_setting k 1 st) = st) /\
    (2 <= setting_of k st -> setting_of k st <= max_of k ->
       adjust_setting k 1 (adjust_setting k (-1) st) = st) /\
    (setting_of k st = max_of k ->
       setting_of k (adjust_setting k (-1) (adjust_setting k 1 st))
       = max_of k - 1).
Proof.
  intros k st. destruct st as [a b c n].
  split; [intros d k' Hk; destruct k, k'; cbn; congruence|].
  split; [intro d; destruct k; reflexivity|].
  split; [|split].
  - destruct k; cbn; unfold clamp; intros H1 H2; f_equal; lia.
  - destruct k; cbn; unfold clamp; intros H1 H2; f_equal; lia.
  - destruct k; cbn; unfold clamp; intro H; lia.
Qed.

Lemma adjust_setting_frame_and_undo_witness :
  adjust_setting D_short (-1) (adjust_setting D_short 1 default_settings)
  = default_settings.
Proof.
  destruct (adjust_setting_frame_and_undo D_short default_settings)
    as (_ & _ & H & _).
  apply H; vm_compute; discriminate.
Defined.

(** ** After a completion or a skip *)



Lemma settings_emit e w : settings (emit e w) = settings w.
Proof. reflexivity. Qed.

Lemma skipSession_cont now w :
  snd (skipSession now w) = None /\
    fst (skipSession now w) = skipSession_rest now w \/
  snd (skipSession now w) = Some K_skipSession /\
    exists e, fst (skipSession now w) = emit e w.
Proof.
  unfold skipSession.
  destruct (sessionId _) as [id|]; [destruct (truthy_str _)|]; cbn [fst snd];
    eauto.
Qed.

Lemma rest_ready_complete now w :
  let w' := completeSession_rest now w in
  isRunning (state w') = false /\ isPaused (state w') = false /\
  endTime (state w') = None /\ sessionId (state w') = None /\
  duration (state w') = duration_of (type (state w')) (settings w) /\
  classId (state w') = classId (state w) /\
  timerInterval w' = timerInterval w /\
  settings w' = settings w.
Proof.
  break_world w. unfold completeSession_rest; cbn.
  destruct type0; cbn; try (repeat split; reflexivity).
  destruct (_ >=? _); repeat split; reflexivity.
Qed.

Lemma rest_ready_skip now w :
  let w' := skipSession_rest now w in
  isRunning (state w') = false /\ isPaused (state w') = false /\
  endTime (state w') = None /\ sessionId (state w') = None /\
  duration (state w') = duration_of (type (state w')) (settings w) /\
  classId (state w') = classId (state w) /\
  timerInterval w' = false /\
  settings w' = settings w.
Proof.
  break_world w. unfold skipSession_rest; cbn.
  destruct type0; cbn; try (repeat split; reflexivity).
  destruct (_ >=? _); repeat split; reflexivity.
Qed.



(** ** Settings along a run *)

Ltac crush_handlers :=
  cbn;
  repeat match goal with
         | |- context [match ?x with _ => _ end] => destruct x eqn:?; cbn
         end.

Lemma settings_toggleTimer now w :
  settings (fst (toggleTimer now w)) = settings w.
Proof. break_world w. unfold toggleTimer. crush_handlers; reflexivity. Qed.

Lemma settings_resetTimer now w :
  settings (fst (resetTimer now w)) = settings w.
Proof.
  unfold resetTimer.
  destruct (sessionId _) as [id|]; [destruct (truthy_str _)|]; reflexivity.
Qed.

Lemma settings_skipSession now w :
  settings (fst (skipSession now w)) = settings w.
Proof.
  destruct (skipSession_cont now w) as [(_ & F) | (_ & e & F)]; rewrite F.
  - apply rest_ready_skip.
  - reflexivity.
Qed.

Lemma settings_completeSession now w :
  settings (fst (completeSession now w)) = settings w.
Proof.
  unfold completeSession.
  destruct (sessionId _) as [id|]; [destruct (truthy_str _)|]; cbn [fst];
    try reflexivity.
  - match goal with
    | |- context [completeSession_rest now ?w0] =>
        destruct (rest_ready_complete now w0) as (_ & _ & _ & _ & _ & _ & _ & A)
    end.
    rewrite A. reflexivity.
  - match goal with
    | |- context [completeSession_rest now ?w0] =>
        destruct (rest_ready_complete now w0) as (_ & _ & _ & _ & _ & _ & _ & A)
    end.
    rewrite A. reflexivity.
Qed.

Lemma settings_tick now w : settings (fst (tick now w)) = settings w.
Proof.
  unfold tick. destruct (_ <=? _); [|reflexivity].
  pose proof (settings_completeSession now (clearInterval w)) as H.
  destruct (completeSession now (clearInterval w)) as [w1 k].
  exact H.
Qed.

Lemma settings_resume k now r w :
  settings (resume k now r w) =
  match k, r with
  | K_init, R_active d =>
      mkSettings (or_default (pomodoro_work_duration d) 25)
                 (or_default (pomodoro_short_break d) 5)
                 (or_default (pomodoro_long_break d) 15)
                 (or_default (pomodoro_sessions_until_long d) 4)
  | _, _ => settings w
  end.
Proof.
  destruct k; cbn [resume].
  - break_world w. unfold resume_init, init_rest, fetchSettings_success.
    destruct r; crush_handlers; reflexivity.
  - unfold resume_toggleTimer. destruct r as [| |[] ?|]; reflexivity.
  - destruct (rest_ready_complete now w) as (_ & _ & _ & _ & _ & _ & _ & A).
    rewrite A. destruct r; reflexivity.
  - destruct r; reflexivity.
  - destruct (rest_ready_skip now w) as (_ & _ & _ & _ & _ & _ & _ & A).
    rewrite A. destruct r; reflexivity.
  - destruct r; reflexivity.
Qed.

Lemma in_bounds_default : in_bounds default_settings.
Proof. intro k. destruct k; cbn; lia. Qed.

Lemma settings_boot now stor :
  settings (world (boot now stor)) = default_settings.
Proof.
  rewrite world_boot, settings_emit. unfold loadState.
  cbn [storage initial_world]. destruct stor as [p|]; [|reflexivity].
  rewrite settings_setSessionType. destruct (_ && _); reflexivity.
Qed.

(** X18. Only a successful bootstrap can take the settings out of their
    bounds or change the long-break threshold from within the page: a page
    load sets the built-in settings, which are within bounds, and every
    other event, including a failed bootstrap, keeps settings that are
    within [1,60] / [1,30] within them and leaves the threshold as it
    is. *)
Theorem settings_stay_in_bounds :
  forall now ev sys,
    bootstrap_succeeds ev sys = false ->
    in_bounds (settings (world sys)) ->
    in_bounds (settings (world (step now ev sys))) /\
    (ev <> E_load ->
     sessions_until_long (settings (world (step now ev sys))) =
     sessions_until_long (settings (world sys))) /\
    (forall stor, settings (world (boot now stor)) = default_settings).
Proof.
  intros now ev sys Hb H.
  assert (E : ev = E_load /\
              settings (world (step now ev sys)) = default_settings \/
              (exists k d, ev = E_adjust k d /\
                 settings (world (step now ev sys)) =
                 adjust_setting k d (settings (world sys))) \/
              ev <> E_load /\
              settings (world (step now ev sys)) = settings (world sys)).
  { destruct ev; cbn [step]; rewrite ?world_suspend; cbn [world].
    - left. split; [reflexivity | apply settings_boot].
    - right; right. split; [discriminate|].
      unfold selectType. destruct (negb _); reflexivity.
    - right; right. split; [discriminate | apply settings_toggleTimer].
    - right; right. split; [discriminate | apply settings_resetTimer].
    - right; right. split; [discriminate | apply settings_skipSession].
    - right; left. exists k, direction. split; [reflexivity|].
      apply settings_adjustDuration.
    - right; right. split; [discriminate | reflexivity].
    - right; right. split; [discriminate|].
      destruct (timerInterval _); rewrite ?world_suspend;
        [apply settings_tick | reflexivity].
    - right; right. split; [discriminate|].
      cbn [bootstrap_succeeds] in Hb.
      destruct (nth_error _ _) as [k|]; cbn [world]; [|reflexivity].
      rewrite settings_resume.
      destruct k, r; try reflexivity; discriminate Hb. }
  split; [|split].
  - destruct E as [(_ & E) | [(k & d & _ & E) | (_ & E)]]; rewrite E.
    + apply in_bounds_default.
    + now apply adjust_setting_in_bounds.
    + exact H.
  - intro Hne.
    destruct E as [(E & _) | [(k & d & _ & E) | (_ & E)]];
      [contradiction | rewrite E | rewrite E; reflexivity].
    destruct k; reflexivity.
  - intro stor. apply settings_boot.
Qed.

Lemma settings_stay_in_bounds_witness :
  in_bounds (settings (world (step 5000 (E_adjust D_work 40)
                                start_then_pause))).
Proof.
  apply (settings_stay_in_bounds 5000 (E_adjust D_work 40) start_then_pause
           eq_refl).
  intro k. destruct k; vm_compute; split; discriminate.
Defined.

(** ** The long break comes round *)

Lemma completeSession_rest_settings now w :
  settings (completeSession_rest now w) = settings w.
Proof. apply rest_ready_complete. Qed.

(** X19. Starting on a work session with the counter within
    [0, until-long): after [n] rounds of a completed work session and its
    completed break, the type is work again and the counter is the initial
    counter plus [n], modulo the threshold; the next work completion selects
    the long break exactly when that sum plus one is a multiple of the
    threshold, and the short break otherwise. *)
Theorem long_break_every_nth_session :
  forall n now w,
    type (state w) = T_work ->
    0 <= completedSessions (state w) < sessions_until_long (settings w) ->
    let c := completedSessions (state w) in
    let m := sessions_until_long (settings w) in
    let w' := complete_cycles n now w in
    type (state w') = T_work /\
    completedSessions (state w') = (c + Z.of_nat n) mod m /\
    settings w' = settings w /\
    type (state (completeSession_rest now w')) =
      if (c + Z.of_nat n + 1) mod m =? 0 then T_long_break else T_short_break.
Proof.
  induction n as [|n IH]; intros now w Ht Hc c m w'.
  - subst w'. cbn [complete_cycles].
    replace (c + Z.of_nat 0) with c by lia.
    rewrite (Z.mod_small c m) by (subst c m; lia).
    split; [exact Ht|]. split; [reflexivity|]. split; [reflexivity|].
    rewrite completeSession_rest_type, Ht. unfold next_type. fold c m.
    destruct (Z.eq_dec (c + 1) m) as [E | E].
    + rewrite E, Z_mod_same_full.
      replace (m >=? m) with true
        by (symmetry; rewrite Z.geb_leb; apply Z.leb_le; lia).
      reflexivity.
    + rewrite (Z.mod_small (c + 1) m) by (subst c m; lia).
      replace (c + 1 >=? m) with false
        by (symmetry; rewrite Z.geb_leb; apply Z.leb_gt; subst c m; lia).
      replace (c + 1 =? 0) with false
        by (symmetry; apply Z.eqb_neq; subst c; lia).
      reflexivity.
  - subst w'. cbn [complete_cycles].
    set (w1 := completeSession_rest now w).
    set (w2 := completeSession_rest now w1).
    assert (S1 : settings w1 = settings w)
      by apply completeSession_rest_settings.
    assert (S2 : settings w2 = settings w)
      by (unfold w2; rewrite completeSession_rest_settings; exact S1).
    assert (C1 : completedSessions (state w1) = (c + 1) mod m).
    { unfold w1. rewrite completeSession_rest_counter, Ht. fold c m.
      destruct (Z.eq_dec (c + 1) m) as [E | E].
      - rewrite E, Z_mod_same_full.
        replace (m >=? m) with true
          by (symmetry; rewrite Z.geb_leb; apply Z.leb_le; lia).
        reflexivity.
      - rewrite (Z.mod_small (c + 1) m) by (subst c m; lia).
        replace (c + 1 >=? m) with false
          by (symmetry; rewrite Z.geb_leb; apply Z.leb_gt; subst c m; lia).
        reflexivity. }
    assert (T1 : type (state w1) <> T_work).
    { unfold w1. rewrite completeSession_rest_type, Ht. unfold next_type.
      destruct (_ >=? _); discriminate. }
    assert (T2 : type (state w2) = T_work).
    { unfold w2. rewrite completeSession_rest_type. unfold next_type.
      destruct (type (state w1)); [contradiction | reflexivity | reflexivity]. }
    assert (C2 : completedSessions (state w2) = (c + 1) mod m).
    { unfold w2. rewrite completeSession_rest_counter.
      destruct (type (state w1)); [contradiction | exact C1 | exact C1]. }
    assert (B : 0 <= completedSessions (state w2)
                < sessions_until_long (settings w2)).
    { rewrite C2, S2. fold m. apply Z.mod_pos_bound. subst c m. lia. }
    destruct (IH now w2 T2 B) as (I1 & I2 & I3 & I4).
    rewrite C2, S2 in I2, I4. fold m in I2, I4.
    split; [exact I1|]. split; [|split].
    + rewrite I2, Z.add_mod_idemp_l by (subst c m; lia).
      f_equal. lia.
    + rewrite I3. exact S2.
    + rewrite I4.
      replace ((c + 1) mod m + Z.of_nat n + 1)
        with ((c + 1) mod m + (Z.of_nat n + 1)) by lia.
      rewrite Z.add_mod_idemp_l by (subst c m; lia).
      replace (c + 1 + (Z.of_nat n + 1)) with (c + Z.of_nat (S n) + 1) by lia.
      reflexivity.
Qed.

Lemma long_break_every_nth_session_witness :
  completedSessions (state (complete_cycles 3 1000 idle_work)) = 3 /\
  type (state (completeSession_rest 1000 (complete_cycles 3 1000 idle_work)))
  = T_long_break.
Proof.
  destruct (long_break_every_nth_session 3 1000 idle_work eq_refl
              ltac:(cbn; lia)) as (_ & H1 & _ & H2).
  split; [exact H1 | exact H2].
Defined.

(** ** The time label *)

Lemma timeStr_checked :
  forallb (fun m => forallb (timeStr_check m) (seq 0 60)) (seq 0 100) = true.
Proof. vm_compute. reflexivity. Qed.

(** For minutes in [0, 100) and seconds in [0, 60) the template gives two
    digits, a colon and two digits. *)
Lemma timeStr_is_mm_ss :
  forall mins secs,
    0 <= mins < 100 ->
    0 <= secs < 60 ->
    timeStr mins secs = (two_digits mins ++ ":" ++ two_digits secs)%string /\
    String.length (timeStr mins secs) = 5%nat.
Proof.
  intros mins secs Hm Hs.
  assert (E : timeStr mins secs
              = (two_digits mins ++ ":" ++ two_digits secs)%string).
  { pose proof timeStr_checked as C.
    rewrite forallb_forall in C.
    specialize (C (Z.to_nat mins)).
    rewrite forallb_forall in C.
    assert (Im : In (Z.to_nat mins) (seq 0 100)) by (apply in_seq; lia).
    assert (Is : In (Z.to_nat secs) (seq 0 60)) by (apply in_seq; lia).
    specialize (C Im (Z.to_nat secs) Is).
    unfold timeStr_check in C. apply String.eqb_eq in C.
    rewrite !Z2Nat.id in C by lia. exact C. }
  split; [exact E|]. rewrite E. reflexivity.
Qed.

(** X20. Whenever the remaining time is between 0 and 99 minutes 59
    seconds, the label that [updateDisplay] writes is exactly two digits, a
    colon and two digits: the zero-padded minutes and seconds of the
    remaining time rounded up to a whole second.  For a timer that is
    neither running nor paused, with a duration below 100 minutes, it is
    the duration followed by ":00". *)
Theorem display_label_is_mm_ss :
  forall now s,
    (0 <= remaining_ms now s <= 5999000 ->
       exists mins secs,
         0 <= mins < 100 /\ 0 <= secs < 60 /\
         1000 * (60 * mins + secs) - 1000 < remaining_ms now s
           <= 1000 * (60 * mins + secs) /\
         display_label now s
           = (two_digits mins ++ ":" ++ two_digits secs)%string /\
         String.length (display_label now s) = 5%nat) /\
    (isRunning s = false -> isPaused s = false -> 0 <= duration s < 100 ->
       display_label now s = (two_digits (duration s) ++ ":00")%string).
Proof.
  intros now s. split.
  - intro H. unfold display_label.
    pose proof (ceil_div_bounds (remaining_ms now s)) as B.
    assert (N : 0 <= ceil_div (remaining_ms now s) 1000)
      by (apply ceil_div_nonneg; lia).
    set (total := ceil_div (remaining_ms now s) 1000) in *.
    rewrite (Z.rem_mod_nonneg total 60) by lia.
    pose proof (Z.div_mod total 60 ltac:(lia)) as E.
    pose proof (Z.mod_pos_bound total 60 ltac:(lia)) as M.
    assert (D : 0 <= total / 60 < 100).
    { split; [apply Z.div_pos; lia|].
      apply Z.div_lt_upper_bound; lia. }
    exists (total / 60), (total mod 60).
    destruct (timeStr_is_mm_ss (total / 60) (total mod 60) D M) as [T L].
    repeat split; try lia; assumption.
  - intros H1 H2 D. unfold display_label.
    rewrite remaining_ms_idle by assumption.
    rewrite ceil_div_exact, Z.div_mul, Z.rem_mul by lia.
    destruct (timeStr_is_mm_ss (duration s) 0 D ltac:(lia)) as [T _].
    exact T.
Qed.

Lemma display_label_is_mm_ss_witness :
  display_label 30500 (state running_with_session) = "01:00"%string /\
  display_label 0 initial_state = "25:00"%string.
Proof.
  split; [reflexivity|].
  destruct (display_label_is_mm_ss 0 initial_state) as [_ H].
  apply (H eq_refl eq_refl). cbn. lia.
Defined.

(** ** Waiting for the backend *)

Lemma waitForFlask_from_spec probe :
  forall n made,
    let res := waitForFlask_from probe made n in
    (made <= snd res <= made + n)%nat /\
    (forall i, (made <= i)%nat -> (S i < snd res)%nat -> probe i = false) /\
    (fst res = Resolved ->
       (made < snd res)%nat /\ probe (pred (snd res)) = true) /\
    (fst res = Rejected ->
       snd res = (made + n)%nat /\
       forall i, (made <= i < made + n)%nat -> probe i = false).
Proof.
  induction n as [|n IH]; intros made res; subst res; cbn [waitForFlask_from].
  - cbn [fst snd]. repeat split; try lia; discriminate.
  - destruct (probe made) eqn:P.
    + cbn [fst snd pred].
      repeat split; try lia; try discriminate; try exact P.
    + destruct (IH (S made)) as (B & F & R & J).
      split; [lia|]. split; [|split].
      * intros i H1 H2.
        destruct (Nat.eq_dec i made) as [-> | Hne]; [exact P|].
        apply F; lia.
      * intro H. destruct (R H) as [R1 R2]. split; [lia | exact R2].
      * intro H. destruct (J H) as [J1 J2]. split; [lia|].
        intros i Hi.
        destruct (Nat.eq_dec i made) as [-> | Hne]; [exact P|].
        apply J2; lia.
Qed.

(** X21. [waitForFlask] makes at most [remainingAttempts] requests and
    stops at the first that is answered: it resolves exactly when one of
    the first [remainingAttempts] requests is answered, after that request
    and with every earlier one failed; otherwise it rejects after exactly
    [remainingAttempts] failed requests.  With no attempt left (a count of
    zero or less) it rejects at once without a request.  It follows its
    source equation on the attempt counter. *)
Theorem waitForFlask_first_answer :
  forall probe r,
    let res := waitForFlask probe r in
    (snd res <= Z.to_nat r)%nat /\
    (fst res = Resolved <->
       exists i, (i < Z.to_nat r)%nat /\ probe i = true) /\
    (fst res = Resolved ->
       probe (pred (snd res)) = true /\
       forall i, (S i < snd res)%nat -> probe i = false) /\
    (fst res = Rejected ->
       snd res = Z.to_nat r /\
       forall i, (i < Z.to_nat r)%nat -> probe i = false) /\
    (r <= 0 -> res = (Rejected, O)) /\
    (forall made,
       waitForFlask_from probe made (Z.to_nat r) =
       if r <=? 0 then (Rejected, made)
       else if probe made then (Resolved, S made)
            else waitForFlask_from probe (S made) (Z.to_nat (r - 1))).
Proof.
  intros probe r res. subst res. unfold waitForFlask.
  destruct (waitForFlask_from_spec probe (Z.to_nat r) O) as (B & F & R & J).
  split; [lia|]. split; [|split; [|split; [|split]]].
  - split.
    + intro H. destruct (R H) as [R1 R2].
      exists (pred (snd (waitForFlask_from probe 0 (Z.to_nat r)))).
      split; [lia | exact R2].
    + intros (i & Hi & Pi).
      destruct (fst (waitForFlask_from probe 0 (Z.to_nat r))) eqn:E;
        [reflexivity|].
      destruct (J eq_refl) as [_ J2].
      rewrite J2 in Pi by lia. discriminate Pi.
  - intro H. destruct (R H) as [_ R2]. split; [exact R2|].
    intros i Hi. apply F; lia.
  - intro H. destruct (J H) as [J1 J2]. split; [lia|].
    intros i Hi. apply J2. lia.
  - intro H. replace (Z.to_nat r) with O by lia. reflexivity.
  - intro made. destruct (r <=? 0) eqn:E.
    + apply Z.leb_le in E. replace (Z.to_nat r) with O by lia. reflexivity.
    + apply Z.leb_gt in E.
      replace (Z.to_nat r) with (S (Z.to_nat (r - 1))) by lia.
      reflexivity.
Qed.

Lemma waitForFlask_first_answer_witness :
  waitForFlask (fun i => Nat.leb 3 i) 30 = (Resolved, 4%nat) /\
  waitForFlask (fun _ => true) 0 = (Rejected, O).
Proof.
  split; [reflexivity|].
  destruct (waitForFlask_first_answer (fun _ => true) 0)
    as (_ & _ & _ & _ & H & _).
  apply H. lia.
Defined.

(** ** Particles of a streak celebration *)

(** X22. A streak celebration never fires more than 200 particles.  For a
    streak of 0 to 15 days it fires 50 plus 10 per day, from 15 days on
    200.  A count that comes out as 0 (a streak of -5) falls back to
    [confetti]'s default of 100, and a negative count fires none. *)
Theorem streak_particles_bounds :
  forall streakCount,
    (streak_particles streakCount <= 200)%nat /\
    (0 <= streakCount <= 15 ->
       Z.of_nat (streak_particles streakCount) = 50 + 10 * streakCount) /\
    (15 <= streakCount -> streak_particles streakCount = 200%nat) /\
    (streakCount = -5 -> streak_particles streakCount = 100%nat) /\
    (streakCount < -5 -> streak_particles streakCount = O).
Proof.
  intro s.
  unfold streak_particles, confetti_particles, confetti_count, or_default,
    streakCelebration_count. cbn [truthy num].
  destruct (Z.min (50 + s * 10) 200 =? 0) eqn:E; cbn [negb].
  - apply Z.eqb_eq in E. repeat split; intros; lia.
  - apply Z.eqb_neq in E. repeat split; intros; lia.
Qed.

Lemma streak_particles_bounds_witness :
  Z.of_nat (streak_particles 7) = 120 /\ streak_particles 40 = 200%nat.
Proof.
  destruct (streak_particles_bounds 7) as (_ & H1 & _).
  destruct (streak_particles_bounds 40) as (_ & _ & H2 & _).
  split; [apply H1; lia | apply H2; lia].
Defined.

(** ** The class carried by the start request *)

(** X23. The class chosen in the drop-down is what the next start request
    carries: an empty choice is stored as no class, any other value as that
    class; nothing else in the state changes, and the state is saved. *)
Theorem selected_class_goes_with_start :
  forall now v w,
    isRunning (state w) = false ->
    truthy_str (sessionId (state w)) = false ->
    let c := if String.eqb v EmptyString then None else Some v in
    let w1 := selectClass v w in
    classId (state w1) = c /\
    set_classId (classId (state w)) (state w1) = state w /\
    storage w1 = Some (state w1) /\
    log (fst (toggleTimer now w1)) =
      log w ++ [Fetch (ReqStart (type (state w)) (duration (state w)) c)].
Proof.
  intros now v w Hrun T. break_world w. subst.
  unfold selectClass, toggleTimer; cbn.
  destruct (isPaused0 && truthy pausedRemaining0); cbn; rewrite T; cbn;
    repeat split.
Qed.

Lemma selected_class_goes_with_start_witness :
  log (fst (toggleTimer 1000 (selectClass "12"%string idle_work))) =
  [Fetch (ReqStart T_work 25 (Some "12"%string))].
Proof.
  destruct (selected_class_goes_with_start 1000 "12"%string idle_work
              eq_refl eq_refl) as (_ & _ & _ & H).
  exact H.
Defined.

(** ** Starting again while the completion request is in flight *)



End Pomodoro.
